(** * Deployment plans and the e2e process helpers of knative.dev/client

    A shallow embedding of

    - [pkg/functions/deploy.go]: [RunDeploy], the interpreter of a deploy
      plan (an ordered list of mkdir / exec / file-template steps);
    - [test/e2e/common.go]: [runCLIWithOpts], [checkNamespace] and
      [createNamespace], the process runner and its two bounded loops.

    Go values are modelled directly: strings are [string], [int] is [Z], a
    Go [error] is [option error] ([None] is [nil]), a Go pair of results is a
    Rocq pair.  Calls that leave the program (the file system, the
    executable search path, child processes, the clock, the logger) act on
    an explicit state which also records them, in order, in a trace. *)

From Stdlib Require Import String Ascii List Bool ZArith Lia.
From Stdlib Require Import DecimalString DecimalZ.
Import ListNotations.
Open Scope string_scope.

(** ** Go errors and strings *)

Inductive error : Type :=
| ErrorString (msg : string)            (* fmt.Errorf, errors.New *)
| PathError (op path cause : string)    (* *os.PathError *)
| LookPathError (name cause : string)   (* *exec.Error *)
| ExitError (state : string)            (* *exec.ExitError *)
| TemplateError (msg : string).         (* errors of the template package *)

(** [err.Error()] *)
Definition Error (e : error) : string :=
  match e with
  | ErrorString msg => msg
  | PathError op path cause => op ++ " " ++ path ++ ": " ++ cause
  | LookPathError name cause => "exec: " ++ name ++ ": " ++ cause
  | ExitError state => state
  | TemplateError msg => "template: " ++ msg
  end.

Definition newline : string := String (ascii_of_nat 10) "".
Definition tab : string := String (ascii_of_nat 9) "".

(** [strings.Contains(s, substr)] *)
Fixpoint Contains (s substr : string) : bool :=
  prefix substr s ||
  match s with
  | EmptyString => false
  | String _ s' => Contains s' substr
  end.

(** [strings.Split(s, sep)] for a separator [sep] of one byte: the pieces
    of [s] between consecutive occurrences of [sep], empty pieces kept, and
    one more piece than there are separators. *)
Fixpoint Split (s : string) (sep : ascii) : list string :=
  match s with
  | EmptyString => [""]
  | String c s' =>
      if Ascii.eqb c sep then "" :: Split s' sep
      else match Split s' sep with
           | piece :: pieces => String c piece :: pieces
           | [] => [String c ""]
           end
  end.

(** [strings.Join(elems, sep)] *)
Definition Join (elems : list string) (sep : string) : string :=
  String.concat sep elems.

(** The white space of [unicode.IsSpace] within ASCII. *)
Definition isSpace (c : ascii) : bool :=
  let n := nat_of_ascii c in
  (n =? 32)%nat || ((9 <=? n)%nat && (n <=? 13)%nat).

(** Splitting a command line on white space, as the plan format
    describes an exec step (a white-space delimited command and its
    arguments); this is what [strings.Fields] computes.  [cur] is the token
    being read, if one has started. *)
Fixpoint fields_from (s : string) (cur : option string) : list string :=
  match s with
  | EmptyString => match cur with Some t => [t] | None => [] end
  | String c s' =>
      if isSpace c
      then match cur with
           | Some t => t :: fields_from s' None
           | None => fields_from s' None
           end
      else fields_from s' (Some (match cur with
                                 | Some t => t ++ String c ""
                                 | None => String c ""
                                 end))
  end.

Definition Fields (s : string) : list string := fields_from s None.

(** ** pkg/functions/deploy.go *)

Module Deploy.

(** The plan as [sdks.LoadSDKInit] returns it: [deployPlan.Spec.Steps],
    every step with [Name], [Mkdir], [Exec] and [File.Source],
    [File.Destination]; a field the plan file leaves out is the empty
    string. *)
Record FileSpec := { Source : string; Destination : string }.
Record Step := { Name : string; Mkdir : string; Exec : string; File : FileSpec }.
Record SDKInitSpec := { Steps : list Step }.
Record SDKInit := { Spec : SDKInitSpec }.

(** The fields of [SdkStatus] that [RunDeploy] reads. *)
Record SdkStatus := { Dir : string; SdkName : string }.

(** [map[string]interface{}], the template context. *)
Definition Data := list (string * string).

(** The standard streams a child process is attached to. *)
Inductive Stream := os_Stdin | os_Stdout | os_Stderr.

(** [exec.Cmd] as [exec.Command(path, args...)] builds it and [RunDeploy]
    fills it in; [Args] are the arguments after the program's own name. *)
Record Cmd := {
  Path : string;
  Args : list string;
  Env : list string;
  Stdin : Stream;
  Stdout : Stream;
  Stderr : Stream
}.

(** The file system as [os.MkdirAll(path, os.ModePerm)] acts on it, and
    the test whether a path names a directory. *)
Class FileSystem := {
  FS : Type;
  MkdirAll : string -> FS -> FS * option error;
  IsDir : string -> FS -> bool
}.

(** The documented contract of [os.MkdirAll]: on a path that is already a
    directory it does nothing and returns nil; when it returns nil the
    directory exists; it never removes a directory. *)
Record MkdirAll_contract `{FileSystem} : Prop := {
  MkdirAll_existing :
    forall p fs, IsDir p fs = true -> MkdirAll p fs = (fs, None);
  MkdirAll_creates :
    forall p fs fs', MkdirAll p fs = (fs', None) -> IsDir p fs' = true;
  MkdirAll_keeps :
    forall p q fs, IsDir q fs = true -> IsDir q (fst (MkdirAll p fs)) = true
}.

(** The collaborators of [RunDeploy] whose code is outside this file: the
    [template] and [sdks] packages, the executable search path, the
    environment of the process and the child processes it runs. *)
Class Host `{FileSystem} := {
  InterpretString : string -> Data -> string * option error;
  RenderTemplate : string -> string -> Data -> FS -> FS * option error;
  LoadSDKInit : string -> SDKInit * option error;
  LookPath : string -> FS -> string * option error;
  os_Environ : list string;
  cmd_Run : Cmd -> FS -> FS * option error
}.

(** What [RunDeploy] does to the outside, in order. *)
Inductive Event :=
| Fprintf (text : string)                (* written to [w] *)
| EvMkdirAll (path : string)
| EvLookPath (file : string)
| EvRun (cmd : Cmd)
| EvRenderTemplate (source dest : string).

Section Interpreter.
Context `{Host}.

Record World := { files : FS; trace : list Event }.

Definition emit (ev : Event) (w : World) : World :=
  {| files := files w; trace := trace w ++ [ev] |}.

(** An operation on the file system, recorded in the trace. *)
Definition perform (ev : Event) (op : FS -> FS * option error) (w : World)
  : World * option error :=
  let '(fs', err) := op (files w) in
  ({| files := fs'; trace := trace w ++ [ev] |}, err).

(** The body of the loop of [RunDeploy] for one step. *)
Definition runStep (sdk : SdkStatus) (data : Data) (step : Step) (w : World)
  : World * option error :=
  let w := emit (Fprintf (" ♫ " ++ Name step ++ newline)) w in
  if negb (Mkdir step =? "") then
    (* createDir, err := template.InterpretString(step.Mkdir, data)
       err = os.MkdirAll(createDir, os.ModePerm) *)
    let '(createDir, _) := InterpretString (Mkdir step) data in
    perform (EvMkdirAll createDir) (MkdirAll createDir) w
  else if negb (Exec step =? "") then
    let parts := Split (Exec step) " " in
    let file := hd "" parts in
    let w := emit (EvLookPath file) w in
    match LookPath file (files w) with
    | (_, Some err) => (w, Some err)
    | (path, None) =>
        (* args := make([]string, 0); if len(parts) > 0 { args = parts[1:] } *)
        let args := if (0 <? length parts)%nat then tl parts else [] in
        let cmd := {| Path := path; Args := args; Env := os_Environ;
                      Stdin := os_Stdin; Stdout := os_Stdout;
                      Stderr := os_Stderr |} in
        perform (EvRun cmd) (cmd_Run cmd) w
    end
  else if negb (Source (File step) =? "") then
    let sourceFile := Dir sdk ++ "/" ++ Source (File step) in
    match InterpretString (Destination (File step)) data with
    | (_, Some err) => (w, Some err)
    | (outFile, None) =>
        perform (EvRenderTemplate sourceFile outFile)
                (RenderTemplate sourceFile outFile data) w
    end
  else
    (w, Some (ErrorString ("invalid config step '" ++ Name step
                           ++ "' - no command specified"))).

(** [for _, step := range deployPlan.Spec.Steps { ... }; return nil] *)
Fixpoint runSteps (sdk : SdkStatus) (data : Data) (steps : list Step)
  (w : World) : World * option error :=
  match steps with
  | [] => (w, None)
  | step :: rest =>
      match runStep sdk data step w with
      | (w', Some err) => (w', Some err)
      | (w', None) => runSteps sdk data rest w'
      end
  end.

Definition RunDeploy (sdk : SdkStatus) (w : World) : World * option error :=
  let deployFile := Dir sdk ++ "deploy.yaml" in
  match LoadSDKInit deployFile with
  | (_, Some err) => (w, Some err)
  | (deployPlan, None) =>
      let data : Data := [] in
      let w := emit (Fprintf ("Using SDK: " ++ SdkName sdk
                              ++ " deploy plans" ++ newline)) w in
      runSteps sdk data (Steps (Spec deployPlan)) w
  end.

End Interpreter.

(** *** Vocabulary of the statements about [RunDeploy] *)

(** The progress line of a step and the banner of a run. *)
Definition marker (step : Step) : string := " ♫ " ++ Name step ++ newline.

Definition banner (sdk : SdkStatus) : string :=
  "Using SDK: " ++ SdkName sdk ++ " deploy plans" ++ newline.

Definition configError (step : Step) : error :=
  ErrorString ("invalid config step '" ++ Name step
               ++ "' - no command specified").

(** The texts written to [w], in order. *)
Fixpoint written (t : list Event) : list string :=
  match t with
  | [] => []
  | Fprintf text :: t' => text :: written t'
  | _ :: t' => written t'
  end.

(** The kinds of payload, and the one the priority order mkdir, exec,
    file source selects for a step. *)
Inductive Branch := MkdirBranch | ExecBranch | FileBranch | NoBranch.

Definition selected (step : Step) : Branch :=
  if negb (Mkdir step =? "") then MkdirBranch
  else if negb (Exec step =? "") then ExecBranch
  else if negb (Source (File step) =? "") then FileBranch
  else NoBranch.

(** The kind of payload an outside call belongs to. *)
Definition event_branch (ev : Event) : option Branch :=
  match ev with
  | Fprintf _ => None
  | EvMkdirAll _ => Some MkdirBranch
  | EvLookPath _ | EvRun _ => Some ExecBranch
  | EvRenderTemplate _ _ => Some FileBranch
  end.

(** A step cut down to one payload. *)
Definition only_mkdir (step : Step) : Step :=
  {| Name := Name step; Mkdir := Mkdir step; Exec := "";
     File := {| Source := ""; Destination := "" |} |}.

Definition only_exec (step : Step) : Step :=
  {| Name := Name step; Mkdir := ""; Exec := Exec step;
     File := {| Source := ""; Destination := "" |} |}.

(** The directory a mkdir step asks for: the text [InterpretString]
    returned, whatever error came with it. *)
Definition createDir `{Host} (data : Data) (step : Step) : string :=
  fst (InterpretString (Mkdir step) data).

(** The command an exec step runs once its program is found at [path]. *)
Definition command `{Host} (path : string) (parts : list string) : Cmd :=
  {| Path := path; Args := tl parts; Env := os_Environ;
     Stdin := os_Stdin; Stdout := os_Stdout; Stderr := os_Stderr |}.

(** An exec step read as the plan format words it: the command line is
    split on white space, the first token is looked up on the search path
    and the process gets the remaining tokens as its arguments. *)
Definition exec_on_whitespace `{Host} (sdk : SdkStatus) (data : Data)
  (step : Step) (w : World) : Prop :=
  let tokens := Fields (Exec step) in
  let w' := fst (runStep sdk data step w) in
  In (EvLookPath (hd "" tokens)) (trace w') /\
  forall path, LookPath (hd "" tokens) (files w) = (path, None) ->
               In (EvRun (command path tokens)) (trace w').

End Deploy.

(** ** test/e2e/common.go *)

Module E2E.

(** Handles of the writers, readers and channels a caller passes in. *)
Definition Writer := nat.
Definition Reader := nat.
Definition Chan := nat.

Record runOpts := {
  NoNamespace : bool;
  AllowError : bool;
  StderrWriter : option Writer;
  StdoutWriter : option Writer;
  StdinReader : option Reader;
  CancelCh : option Chan;
  Redact : bool
}.

(** [runOpts{}] *)
Definition noOpts : runOpts :=
  {| NoNamespace := false; AllowError := false; StderrWriter := None;
     StdoutWriter := None; StdinReader := None; CancelCh := None;
     Redact := false |}.

Definition MaxRetries : Z := 10.
(** [5 * time.Second], in nanoseconds. *)
Definition RetrySleepDuration : Z := 5 * 1000000000.
(** [int(RetrySleepDuration.Seconds())] *)
Definition RetrySleepSeconds : Z := RetrySleepDuration / 1000000000.

(** Where a child's output stream goes: a buffer of the runner or a writer
    of the caller. *)
Inductive Sink := ToBuffer | ToWriter (w : Writer).

(** [exec.Cmd] as [runCLIWithOpts] builds it. *)
Record Cmd := {
  cli : string;
  args : list string;
  Stdin : option Reader;
  Stdout : Sink;
  Stderr : Sink
}.

(** What [cmd.Run()] leaves behind: the bytes the child wrote to its two
    output streams and the error of the call ([None] for exit status 0). *)
Record Completed := {
  stdoutText : string;
  stderrText : string;
  runErr : option error
}.

(** Arguments of a format verb of the logger. *)
Inductive Arg := AStr (s : string) | AInt (n : Z) | AErr (e : option error).

Inductive Event :=
| EvDebugf (format : string) (a : list Arg)
| EvSpawn (cmd : Cmd)                          (* cmd.Run() *)
| EvKubectl (a : list string) (opts : runOpts) (* kubectl.RunWithOpts *)
| EvSleep (d : Z).                             (* time.Sleep *)

(** A call either returns or ends the whole run. *)
Inductive outcome (A : Type) : Type :=
| Returned (a : A)
| Exited (msg : string).
Arguments Returned {A} a.
Arguments Exited {A} msg.

(** The state of a run: how many child processes it has started and what
    it has done so far. *)
Record State := { started : nat; trace : list Event }.

Definition M (A : Type) : Type := State -> outcome A * State.

Definition ret {A} (a : A) : M A := fun st => (Returned a, st).

Definition bind {A B} (m : M A) (f : A -> M B) : M B :=
  fun st =>
    match m st with
    | (Returned a, st') => f a st'
    | (Exited msg, st') => (Exited msg, st')
    end.

Notation "x <- m ;; k" := (bind m (fun x => k))
  (at level 61, m at next level, right associativity).
Notation "m ;;; k" := (bind m (fun _ => k))
  (at level 61, right associativity).

Definition record (ev : Event) : M unit :=
  fun st => (Returned tt, {| started := started st; trace := trace st ++ [ev] |}).

(** [logger.Debugf]: the format is kept as the source spells it. *)
Definition Debugf (format : string) (a : list Arg) : M unit :=
  record (EvDebugf format a).

(** Modelled from the spec: [Logger] is declared outside this file; its
    [Fatalf] reports the message and terminates the overall run instead of
    returning to its caller. *)
Definition Fatalf {A} (msg : string) : M A := fun st => (Exited msg, st).

Definition Sleep (d : Z) : M unit := record (EvSleep d).

(** The outside of the runner: what the [i]-th child process of a run
    does, and what [kubectl.RunWithOpts] (declared outside this file)
    answers when its call is the [i]-th one of the run. *)
Class Cluster := {
  process : nat -> Cmd -> Completed;
  kubectl : nat -> list string -> runOpts -> outcome (string * option error)
}.

Section Runner.
Context `{Cluster}.

(** [cmd.Run()] *)
Definition cmd_Run (cmd : Cmd) : M Completed :=
  fun st => (Returned (process (started st) cmd),
             {| started := S (started st); trace := trace st ++ [EvSpawn cmd] |}).

(** [kubectl{t, logger}.RunWithOpts(args, opts)] *)
Definition kubectl_RunWithOpts (a : list string) (opts : runOpts)
  : M (string * option error) :=
  fun st => (kubectl (started st) a opts,
             {| started := S (started st);
                trace := trace st ++ [EvKubectl a opts] |}).

Definition cmdCLIDesc (cli : string) (a : list string) : string :=
  cli ++ " " ++ Join a " ".

(** The listener started for [opts.CancelCh] only signals the child; what
    the child then does is part of [process]. *)
Definition runCLIWithOpts (cli : string) (a : list string) (opts : runOpts)
  : M (string * option error) :=
  Debugf "Running '%s'...\n" [AStr (cmdCLIDesc cli a)] ;;;
  let cmd := {| cli := cli; args := a;
                Stdin := StdinReader opts;
                Stdout := match StdoutWriter opts with
                          | Some w => ToWriter w
                          | None => ToBuffer
                          end;
                Stderr := ToBuffer |} in
  done <- cmd_Run cmd ;;
  (* stdout.String(): the buffer stays empty when the caller's writer is used *)
  let stdout := match StdoutWriter opts with
                | Some _ => ""
                | None => stdoutText done
                end in
  match runErr done with
  | Some e =>
      let err := ErrorString ("Execution error: stderr: '" ++ stderrText done
                              ++ "' error: '" ++ Error e ++ "'") in
      (if negb (AllowError opts)
       then Fatalf ("Failed to successfully execute '" ++ cmdCLIDesc cli a
                    ++ "': " ++ Error err)
       else ret tt) ;;;
      ret (stdout, Some err)
  | None => ret (stdout, None)
  end.

(** The loop of [checkNamespace], with [n] iterations left to go:
    [for retries < MaxRetries { ... }; return true]. *)
Fixpoint checkNamespace_loop (n : nat) (retries : Z) (namespace : string)
  (created : bool) (maxRetries : Z) : M bool :=
  match n with
  | O => ret true
  | S n' =>
      r <- kubectl_RunWithOpts ["get"; "namespace"] noOpts ;;
      let output := fst r in
      if negb created && negb (Contains output namespace) then ret true
      else if created && Contains output namespace then ret true
      else
        let retries := (retries + 1)%Z in
        Debugf "Namespace is terminating, waiting %ds, and trying again: %d of %d\n"
               [AInt RetrySleepSeconds; AInt retries; AInt maxRetries] ;;;
        Sleep RetrySleepDuration ;;;
        checkNamespace_loop n' retries namespace created maxRetries
  end.

(** The loop entered with [retries]: it runs while [retries < MaxRetries]. *)
Definition checkNamespace_from (retries : Z) (namespace : string)
  (created : bool) (maxRetries : Z) : M bool :=
  checkNamespace_loop (Z.to_nat (MaxRetries - retries)) retries
                      namespace created maxRetries.

Definition checkNamespace (namespace : string) (created : bool)
  (maxRetries : Z) : M bool :=
  checkNamespace_from 0 namespace created maxRetries.

(** The loop of [createNamespace], with [n] iterations left to go:
    [for retries < maxRetries { ... }; return out, err]. *)
Fixpoint createNamespace_loop (n : nat) (retries : Z) (out : string)
  (err : option error) (namespace : string) (maxRetries : Z)
  : M (string * option error) :=
  match n with
  | O => ret (out, err)
  | S n' =>
      r <- kubectl_RunWithOpts ["create"; "namespace"; namespace]
             {| NoNamespace := false; AllowError := true;
                StderrWriter := None; StdoutWriter := None;
                StdinReader := None; CancelCh := None; Redact := false |} ;;
      let '(out, err) := r in
      match err with
      | None => ret (out, None)
      | Some _ =>
          let retries := (retries + 1)%Z in
          Debugf "Could not create namespace with error %v, waiting %ds, and trying again: %d of %d\n"
                 [AErr err; AInt RetrySleepSeconds; AInt retries;
                  AInt maxRetries] ;;;
          Sleep RetrySleepDuration ;;;
          createNamespace_loop n' retries out err namespace maxRetries
      end
  end.

Definition createNamespace_from (retries : Z) (out : string)
  (err : option error) (namespace : string) (maxRetries : Z)
  : M (string * option error) :=
  createNamespace_loop (Z.to_nat (maxRetries - retries)) retries out err
                       namespace maxRetries.

Definition createNamespace (namespace : string) (maxRetries : Z)
  : M (string * option error) :=
  createNamespace_from 0 "" None namespace maxRetries.

End Runner.

(** *** Vocabulary of the statements about the runner and its loops *)

(** The command [runCLIWithOpts] hands to [cmd.Run()]. *)
Definition builtCmd (cli : string) (a : list string) (opts : runOpts) : Cmd :=
  {| cli := cli; args := a; Stdin := StdinReader opts;
     Stdout := match StdoutWriter opts with
               | Some w => ToWriter w
               | None => ToBuffer
               end;
     Stderr := ToBuffer |}.

(** The target condition of the poller on one listing. *)
Definition satisfied (created : bool) (output namespace : string) : bool :=
  if created then Contains output namespace
  else negb (Contains output namespace).

(** How often a trace calls kubectl, and the pauses it makes. *)
Fixpoint kubectlCalls (t : list Event) : nat :=
  match t with
  | [] => O
  | EvKubectl _ _ :: t' => S (kubectlCalls t')
  | _ :: t' => kubectlCalls t'
  end.

Fixpoint sleeps (t : list Event) : list Z :=
  match t with
  | [] => []
  | EvSleep d :: t' => d :: sleeps t'
  | _ :: t' => sleeps t'
  end.

Definition getArgs : list string := ["get"; "namespace"].

Definition createArgs (namespace : string) : list string :=
  ["create"; "namespace"; namespace].

(** [runOpts{AllowError: true}] *)
Definition allowError : runOpts :=
  {| NoNamespace := false; AllowError := true; StderrWriter := None;
     StdoutWriter := None; StdinReader := None; CancelCh := None;
     Redact := false |}.

(** [n] rounds of the poller that did not meet the condition, the first
    entered with [retries]: a listing, a log line, a pause. *)
Fixpoint checkRounds (n : nat) (retries maxRetries : Z) : list Event :=
  match n with
  | O => []
  | S n' =>
      EvKubectl getArgs noOpts
      :: EvDebugf "Namespace is terminating, waiting %ds, and trying again: %d of %d\n"
                  [AInt RetrySleepSeconds; AInt (retries + 1); AInt maxRetries]
      :: EvSleep RetrySleepDuration
      :: checkRounds n' (retries + 1) maxRetries
  end.

(** [n] failed attempts to create [namespace], the first entered with
    [retries]; attempt [i] failed with [errs i]: a create call, a log line,
    a pause. *)
Fixpoint createRounds (n : nat) (retries maxRetries : Z) (namespace : string)
  (errs : nat -> error) : list Event :=
  match n with
  | O => []
  | S n' =>
      EvKubectl (createArgs namespace) allowError
      :: EvDebugf "Could not create namespace with error %v, waiting %ds, and trying again: %d of %d\n"
                  [AErr (Some (errs O)); AInt RetrySleepSeconds;
                   AInt (retries + 1); AInt maxRetries]
      :: EvSleep RetrySleepDuration
      :: createRounds n' (retries + 1) maxRetries namespace
                      (fun i => errs (S i))
  end.

(** A cluster whose kubectl answers every call the same. *)
Definition steady (answer : string * option error) : Cluster :=
  {| process := fun _ _ => {| stdoutText := ""; stderrText := "";
                              runErr := None |};
     kubectl := fun _ _ _ => Returned answer |}.

(** A cluster whose kubectl fails [failures] times and then answers
    [created]; its child processes write [out] and [err] and end with
    [status]. *)
Definition flaky (failures : nat) (out err : string) (status : option error)
  : Cluster :=
  {| process := fun _ _ => {| stdoutText := out; stderrText := err;
                              runErr := status |};
     kubectl := fun i _ _ =>
       if (i <? failures)%nat
       then Returned ("", Some (ErrorString "connection refused"))
       else Returned ("namespace/kn-test-1 created", None) |}.

Definition fresh : State := {| started := 0; trace := [] |}.

Definition listing : string := "NAME STATUS AGE default Active 3d".

Definition refused : error := ErrorString "connection refused".

End E2E.

(** ** A small host to run plans on

    An in-memory file system whose [MkdirAll] follows [os.MkdirAll], and
    collaborators simple enough to evaluate.  Paths are split at [/]; empty
    and [.] components are skipped, so a path names the list of its
    components below the directory it starts from. *)

Module MemFS.
Import Deploy.

Inductive Node := Directory | RegularFile.
Definition path := list string.
Definition tree := list (path * Node).

Definition path_eqb (p q : path) : bool :=
  if list_eq_dec string_dec p q then true else false.

Fixpoint lookup (p : path) (t : tree) : option Node :=
  match t with
  | [] => None
  | (q, n) :: t' => if path_eqb p q then Some n else lookup p t'
  end.

Definition components (s : string) : path :=
  filter (fun c => negb (c =? "") && negb (c =? ".")) (Split s "/").

(** The walk of [os.MkdirAll] from the starting directory [pre] down the
    components [cs]: a directory met on the way is entered, a regular file
    stops the walk, a missing component is created. *)
Fixpoint mkdirs (pre : path) (cs : list string) (t : tree)
  : tree * option error :=
  match cs with
  | [] => (t, None)
  | c :: cs' =>
      let p := (pre ++ [c])%list in
      match lookup p t with
      | Some Directory => mkdirs p cs' t
      | Some RegularFile =>
          (t, Some (PathError "mkdir" (Join p "/") "not a directory"))
      | None => mkdirs p cs' ((p, Directory) :: t)
      end
  end.

Fixpoint all_dirs (pre : path) (cs : list string) (t : tree) : bool :=
  match cs with
  | [] => true
  | c :: cs' =>
      let p := (pre ++ [c])%list in
      match lookup p t with
      | Some Directory => all_dirs p cs' t
      | _ => false
      end
  end.

(** [os.MkdirAll("")] fails: the empty path names nothing. *)
Definition mem_MkdirAll (s : string) (t : tree) : tree * option error :=
  if s =? "" then (t, Some (PathError "mkdir" "" "no such file or directory"))
  else mkdirs [] (components s) t.

Definition mem_IsDir (s : string) (t : tree) : bool :=
  negb (s =? "") && all_dirs [] (components s) t.

#[export] Instance memFS : FileSystem :=
  {| FS := tree; MkdirAll := mem_MkdirAll; IsDir := mem_IsDir |}.

Fixpoint lookup_key (k : string) (data : Data) : option string :=
  match data with
  | [] => None
  | (k', v) :: data' => if k =? k' then Some v else lookup_key k data'
  end.

(** Modelled from the spec: the template package is outside this file.
    Rendering replaces every reference [{{key}}] by the value of [key] in
    the context and fails when the key is absent or the reference is not
    closed.  [key] is the reference being read, if one is open. *)
Fixpoint interpret (s : string) (key : option string) (data : Data)
  : string * option error :=
  match key, s with
  | None, EmptyString => ("", None)
  | Some _, EmptyString => ("", Some (TemplateError "unclosed action"))
  | None, String "{"%char (String "{"%char rest) => interpret rest (Some "") data
  | Some k, String "}"%char (String "}"%char rest) =>
      match lookup_key k data with
      | None => ("", Some (TemplateError ("no entry for key " ++ k)))
      | Some v =>
          match interpret rest None data with
          | (out, None) => (v ++ out, None)
          | (_, Some e) => ("", Some e)
          end
      end
  | None, String c rest =>
      match interpret rest None data with
      | (out, None) => (String c out, None)
      | (_, Some e) => ("", Some e)
      end
  | Some k, String c rest => interpret rest (Some (k ++ String c "")) data
  end.

Definition mem_RenderTemplate (source dest : string) (data : Data) (t : tree)
  : tree * option error :=
  match lookup (components source) t with
  | Some RegularFile => ((components dest, RegularFile) :: t, None)
  | _ => (t, Some (PathError "open" source "no such file or directory"))
  end.

Definition mem_LookPath (file : string) (t : tree) : string * option error :=
  if existsb (String.eqb file) ["echo"; "true"; "false"]
  then ("/bin/" ++ file, None)
  else ("", Some (LookPathError file "executable file not found in $PATH")).

Definition mem_Run (cmd : Cmd) (t : tree) : tree * option error :=
  if Path cmd =? "/bin/false" then (t, Some (ExitError "exit status 1"))
  else (t, None).

(** A host whose plan file holds [steps]. *)
Definition host (steps : list Step) : Host :=
  {| InterpretString := fun s data => interpret s None data;
     RenderTemplate := mem_RenderTemplate;
     LoadSDKInit := fun _ => ({| Spec := {| Steps := steps |} |}, None);
     LookPath := mem_LookPath;
     os_Environ := ["PATH=/bin"];
     cmd_Run := mem_Run |}.

Definition sdk : SdkStatus := {| Dir := "sdk/"; SdkName := "go" |}.

Definition noFile : FileSpec := {| Source := ""; Destination := "" |}.

Definition mkdirStep (name dir : string) : Step :=
  {| Name := name; Mkdir := dir; Exec := ""; File := noFile |}.

Definition execStep (name line : string) : Step :=
  {| Name := name; Mkdir := ""; Exec := line; File := noFile |}.

Definition fileStep (name source dest : string) : Step :=
  {| Name := name; Mkdir := ""; Exec := "";
     File := {| Source := source; Destination := dest |} |}.

(** A file system holding the template [sdk/main.tmpl] and a regular
    file [notes], and no event so far. *)
Definition start : World :=
  {| files := [(["sdk"; "main.tmpl"], RegularFile); (["sdk"], Directory);
               (["notes"], RegularFile)];
     trace := [] |}.

Definition threeSteps : list Step :=
  [mkdirStep "one" "build/out"; execStep "two" "nosuchtool -x";
   mkdirStep "three" "late"].

Definition twoDirs : list Step :=
  [mkdirStep "one" "build/out"; mkdirStep "two" "build"].

End MemFS.

(** ** test/e2e/common.go: the life cycle of a test *)

Module Lifecycle.

(** [strconv.Itoa], which is also what the verb [%d] prints. *)
Definition Itoa (i : Z) : string := NilEmpty.string_of_int (Z.to_int i).

(** Go's [int] on a 64-bit platform: [i++] wraps around. *)
Definition maxInt : Z := 2 ^ 63 - 1.
Definition minInt : Z := - 2 ^ 63.
Definition wrap (z : Z) : Z := (z + 2 ^ 63) mod 2 ^ 64 - 2 ^ 63.

(** The package variables [namespaceCount] and [serviceCount], declared
    outside this file and guarded by the mutex [m]. *)
Record Counters := { namespaceCount : Z; serviceCount : Z }.

(** The state of a test run: the state of the runner and the counters. *)
Record TestState := { run : E2E.State; counters : Counters }.

(** A call within a test returns, fails the test ([t.Fatalf]: the test
    function stops there) or ends the whole run ([logger.Fatalf]). *)
Inductive ending (A : Type) : Type :=
| Finished (a : A)
| FailedNow (msg : string)
| RunEnded (msg : string).
Arguments Finished {A} a.
Arguments FailedNow {A} msg.
Arguments RunEnded {A} msg.

Definition T (A : Type) : Type := TestState -> ending A * TestState.

Definition ret {A} (a : A) : T A := fun ts => (Finished a, ts).

Definition bind {A B} (m : T A) (f : A -> T B) : T B :=
  fun ts =>
    match m ts with
    | (Finished a, ts') => f a ts'
    | (FailedNow msg, ts') => (FailedNow msg, ts')
    | (RunEnded msg, ts') => (RunEnded msg, ts')
    end.

Notation "x <- m ;; k" := (bind m (fun x => k))
  (at level 61, m at next level, right associativity).
Notation "m ;;; k" := (bind m (fun _ => k))
  (at level 61, right associativity).

(** A call of the runner made from a test. *)
Definition lift {A} (m : E2E.M A) : T A :=
  fun ts =>
    match m (run ts) with
    | (E2E.Returned a, st') =>
        (Finished a, {| run := st'; counters := counters ts |})
    | (E2E.Exited msg, st') =>
        (RunEnded msg, {| run := st'; counters := counters ts |})
    end.

(** [t.Fatalf] of the [testing] package: the message is logged and the
    test function stops. *)
Definition t_Fatalf {A} (msg : string) : T A := fun ts => (FailedNow msg, ts).

Definition logger_Fatalf {A} (msg : string) : T A := lift (E2E.Fatalf msg).

(** The fields of [env] and [kn] that this file sets, and [e2eTest]. *)
Record Env := { Namespace : string }.
Record Kn := { namespace : string }.
Record e2eTest := {
  env : Env;
  kn : Kn;
  createNamespaceOnSetup : bool;
  namespaceCreated : bool
}.

(** [regexp.MatchString(pattern, s)] *)
Class Regexp := {
  MatchString : string -> string -> bool * option error
}.

(** The two functions below hold the mutex [m] from their first to their
    last statement, so calls from several goroutines take effect one after
    the other, each as a whole. *)
Definition getNamespaceCountAndIncrement : T Z :=
  fun ts =>
    let current := namespaceCount (counters ts) in
    (Finished current,
     {| run := run ts;
        counters := {| namespaceCount := wrap (current + 1);
                       serviceCount := serviceCount (counters ts) |} |}).

Definition getServiceNameAndIncrement (base : string) : T string :=
  fun ts =>
    let current := serviceCount (counters ts) in
    (Finished (base ++ Itoa current),
     {| run := run ts;
        counters := {| namespaceCount := namespaceCount (counters ts);
                       serviceCount := wrap (current + 1) |} |}).

Section Tests.
Context `{E2E.Cluster} `{Regexp}.

Definition matchRegexp (matchingRegexp actual : string) : T bool :=
  match MatchString matchingRegexp actual with
  | (_, Some err) =>
      t_Fatalf ("Failed to match regexp '" ++ matchingRegexp
                ++ "'. Error: '" ++ Error err ++ "'")
  | (matched, None) => ret matched
  end.

Definition incorrectOutput (expected out : string) : string :=
  "Expected output incorrect, expecting to include:" ++ newline ++ expected
  ++ newline ++ " Instead found:" ++ newline ++ out ++ newline.

(** The method changes [test.namespaceCreated]; the test value after the
    call is its result. *)
Definition CreateTestNamespace (test : e2eTest) (namespace : string)
  : T e2eTest :=
  let expectedOutputRegexp := "namespace?.+" ++ namespace ++ ".+created" in
  r <- lift (E2E.createNamespace namespace E2E.MaxRetries) ;;
  let '(out, err) := r in
  match err with
  | Some e =>
      logger_Fatalf ("Could not create namespace with error " ++ Error e
                     ++ ", giving up" ++ newline)
  | None => ret tt
  end ;;;
  matched <- matchRegexp expectedOutputRegexp out ;;
  (if negb matched
   then t_Fatalf (incorrectOutput expectedOutputRegexp out)
   else ret tt) ;;;
  ret {| env := env test; kn := kn test;
         createNamespaceOnSetup := createNamespaceOnSetup test;
         namespaceCreated := true |}.

Definition DeleteTestNamespace (test : e2eTest) (namespace : string)
  : T e2eTest :=
  r <- lift (E2E.kubectl_RunWithOpts ["delete"; "namespace"; namespace]
               E2E.noOpts) ;;
  let '(out, err) := r in
  match err with
  | Some e =>
      t_Fatalf ("Error executing 'kubectl delete namespace' command. Error: "
                ++ Error e)
  | None => ret tt
  end ;;;
  let expectedOutputRegexp := "namespace?.+" ++ namespace ++ ".+deleted" in
  matched <- matchRegexp expectedOutputRegexp out ;;
  (if negb matched
   then t_Fatalf (incorrectOutput expectedOutputRegexp out)
   else ret tt) ;;;
  ret {| env := env test; kn := kn test;
         createNamespaceOnSetup := createNamespaceOnSetup test;
         namespaceCreated := false |}.

Definition WaitForNamespaceDeleted (namespace : string) : T unit :=
  deleted <- lift (E2E.checkNamespace namespace false E2E.MaxRetries) ;;
  if negb deleted
  then t_Fatalf ("Error deleting namespace " ++ namespace ++ ", timed out")
  else ret tt.

Definition WaitForNamespaceCreated (namespace : string) : T unit :=
  created <- lift (E2E.checkNamespace namespace true E2E.MaxRetries) ;;
  if negb created
  then t_Fatalf ("Error creating namespace " ++ namespace ++ ", timed out")
  else ret tt.

Definition Setup (test : e2eTest) : T e2eTest :=
  count <- getNamespaceCountAndIncrement ;;
  let ns := Namespace (env test) ++ Itoa count in
  let test := {| env := {| Namespace := ns |};
                 kn := {| namespace := ns |};
                 createNamespaceOnSetup := createNamespaceOnSetup test;
                 namespaceCreated := namespaceCreated test |} in
  if createNamespaceOnSetup test then
    test <- CreateTestNamespace test (Namespace (env test)) ;;
    WaitForNamespaceCreated (Namespace (env test)) ;;;
    ret test
  else ret test.

Definition Teardown (test : e2eTest) : T e2eTest :=
  if namespaceCreated test
  then DeleteTestNamespace test (Namespace (env test))
  else ret test.

End Tests.

(** *** Vocabulary of the statements about the life cycle *)

(** A call of one of the two counter functions, and what it returned. *)
Inductive CounterCall := NextNamespace | NextServiceName (base : string).
Inductive CounterResult := Ordinal (n : Z) | ServiceName (s : string).

Definition call (c : CounterCall) : T CounterResult :=
  match c with
  | NextNamespace => n <- getNamespaceCountAndIncrement ;; ret (Ordinal n)
  | NextServiceName base =>
      s <- getServiceNameAndIncrement base ;; ret (ServiceName s)
  end.

(** The calls of a schedule, made one after the other. *)
Fixpoint callAll (calls : list CounterCall) : T (list CounterResult) :=
  match calls with
  | [] => ret []
  | c :: calls' =>
      r <- call c ;; rs <- callAll calls' ;; ret (r :: rs)
  end.

Fixpoint ordinals (rs : list CounterResult) : list Z :=
  match rs with
  | [] => []
  | Ordinal n :: rs' => n :: ordinals rs'
  | ServiceName _ :: rs' => ordinals rs'
  end.

Fixpoint serviceNames (rs : list CounterResult) : list string :=
  match rs with
  | [] => []
  | Ordinal _ :: rs' => serviceNames rs'
  | ServiceName s :: rs' => s :: serviceNames rs'
  end.

Fixpoint namespaceCalls (calls : list CounterCall) : nat :=
  match calls with
  | [] => O
  | NextNamespace :: calls' => S (namespaceCalls calls')
  | NextServiceName _ :: calls' => namespaceCalls calls'
  end.

Fixpoint serviceCalls (calls : list CounterCall) : nat :=
  match calls with
  | [] => O
  | NextNamespace :: calls' => serviceCalls calls'
  | NextServiceName _ :: calls' => S (serviceCalls calls')
  end.

(** The bases of the service names a schedule asks for, in order. *)
Fixpoint bases (calls : list CounterCall) : list string :=
  match calls with
  | [] => []
  | NextNamespace :: calls' => bases calls'
  | NextServiceName base :: calls' => base :: bases calls'
  end.

(** [first], [first + 1], ..., [n] numbers in all. *)
Fixpoint countFrom (first : Z) (n : nat) : list Z :=
  match n with
  | O => []
  | S n' => first :: countFrom (first + 1) n'
  end.

End Lifecycle.

(** ** More vocabulary for the loops of the runner *)

Module E2EWords.

(** The effort of a loop from [st] to [st']: [k] calls of kubectl and [j]
    pauses of [RetrySleepDuration], counted on the state and on the
    trace alike. *)
Definition effort (st st' : E2E.State) (k j : nat) : Prop :=
  E2E.started st' = (E2E.started st + k)%nat /\
  E2E.kubectlCalls (E2E.trace st')
  = (E2E.kubectlCalls (E2E.trace st) + k)%nat /\
  E2E.sleeps (E2E.trace st')
  = (E2E.sleeps (E2E.trace st) ++ repeat E2E.RetrySleepDuration j)%list.

End E2EWords.

(** ** More of the small host and the small clusters *)

Module MoreFixtures.
Import Deploy MemFS.

(** The host of [MemFS.host], except that its template engine refuses
    every context that is not empty. *)
Definition strictHost (steps : list Step) : Host :=
  {| InterpretString := fun s data =>
       match data with
       | [] => interpret s None []
       | _ => ("", Some (TemplateError "context not supported"))
       end;
     RenderTemplate := fun source dest data t =>
       match data with
       | [] => mem_RenderTemplate source dest [] t
       | _ => (t, Some (TemplateError "context not supported"))
       end;
     LoadSDKInit := fun _ => ({| Spec := {| Steps := steps |} |}, None);
     LookPath := mem_LookPath;
     os_Environ := ["PATH=/bin"];
     cmd_Run := mem_Run |}.

Definition mixedSteps : list Step :=
  [mkdirStep "one" "build/out";
   fileStep "two" "main.tmpl" "build/out/main.go";
   execStep "three" "echo done"].

(** A matcher that takes a pattern to match when the text holds the last
    word of the pattern, [created] or [deleted]. *)
Definition lastWord : Lifecycle.Regexp :=
  {| Lifecycle.MatchString := fun pattern s =>
       (Contains pattern "created" && Contains s "created"
        || Contains pattern "deleted" && Contains s "deleted", None) |}.

(** A cluster that creates a namespace at the first request and confirms
    every deletion; its listing shows the namespace [kn-test-7]. *)
Definition willing : E2E.Cluster :=
  {| E2E.process := fun _ _ => {| E2E.stdoutText := ""; E2E.stderrText := "";
                                  E2E.runErr := None |};
     E2E.kubectl := fun _ a _ =>
       match a with
       | "create" :: _ => E2E.Returned ("namespace/kn-test-7 created", None)
       | "delete" :: _ => E2E.Returned ("namespace kn-test-7 deleted", None)
       | _ => E2E.Returned ("NAME STATUS kn-test-7 Active", None)
       end |}.

Definition freshTest : Lifecycle.TestState :=
  {| Lifecycle.run := E2E.fresh;
     Lifecycle.counters := {| Lifecycle.namespaceCount := 7;
                              Lifecycle.serviceCount := 0 |} |}.

Definition knTest (create : bool) : Lifecycle.e2eTest :=
  {| Lifecycle.env := {| Lifecycle.Namespace := "kn-test-" |};
     Lifecycle.kn := {| Lifecycle.namespace := "" |};
     Lifecycle.createNamespaceOnSetup := create;
     Lifecycle.namespaceCreated := false |}.

(** The value a call finished with, or [default]. *)
Definition finished {A} (e : Lifecycle.ending A) (default : A) : A :=
  match e with
  | Lifecycle.Finished a => a
  | _ => default
  end.

(** A test set up with its namespace on the willing cluster. *)
Definition setUp : Lifecycle.ending Lifecycle.e2eTest * Lifecycle.TestState :=
  Lifecycle.Setup (H := willing) (H0 := lastWord) (knTest true) freshTest.

Definition tornDown
  : Lifecycle.ending Lifecycle.e2eTest * Lifecycle.TestState :=
  Lifecycle.Teardown (H := willing) (H0 := lastWord)
    (finished (fst setUp) (knTest true)) (snd setUp).

End MoreFixtures.

(** * Facts about strings *)

Lemma prefix_append (s t : string) : prefix s (s ++ t) = true.
Proof.
  induction s as [|c s IH]; simpl; [now destruct t|].
  destruct (ascii_dec c c); [exact IH|congruence].
Qed.

Lemma Contains_prefix (s substr : string) :
  prefix substr s = true -> Contains s substr = true.
Proof. intros Hp. destruct s; cbn [Contains]; rewrite Hp; reflexivity. Qed.

Lemma Contains_append (a s b : string) : Contains (a ++ s ++ b) s = true.
Proof.
  induction a as [|c a IH]; simpl.
  - apply Contains_prefix, prefix_append.
  - rewrite IH. apply orb_true_r.
Qed.

Lemma Split_not_nil (s : string) (sep : ascii) : Split s sep <> [].
Proof.
  destruct s as [|c s]; simpl; [discriminate|].
  destruct (Ascii.eqb c sep); [discriminate|].
  destruct (Split s sep); discriminate.
Qed.

Lemma Split_length (s : string) (sep : ascii) :
  (0 <? List.length (Split s sep))%nat = true.
Proof.
  pose proof (Split_not_nil s sep) as Hn.
  destruct (Split s sep); [contradiction|reflexivity].
Qed.

Lemma Join_Split (s : string) (sep : ascii) :
  Join (Split s sep) (String sep "") = s.
Proof.
  unfold Join. induction s as [|c s IH]; simpl; [reflexivity|].
  destruct (Ascii.eqb c sep) eqn:E.
  - apply Ascii.eqb_eq in E. subst c.
    pose proof (Split_not_nil s sep) as Hn.
    destruct (Split s sep) as [|p ps]; [contradiction|].
    simpl in *. now rewrite IH.
  - pose proof (Split_not_nil s sep) as Hn.
    destruct (Split s sep) as [|p ps]; [contradiction|].
    simpl in *. destruct ps; simpl in *; now rewrite <- IH.
Qed.

Lemma Split_pieces (s : string) (sep : ascii) :
  Forall (fun piece => Contains piece (String sep "") = false) (Split s sep).
Proof.
  induction s as [|c s IH]; simpl.
  - repeat constructor.
  - destruct (Ascii.eqb c sep) eqn:E.
    + constructor; [reflexivity|exact IH].
    + pose proof (Split_not_nil s sep) as Hn.
      destruct (Split s sep) as [|p ps]; [contradiction|].
      inversion IH as [|? ? Hp Hps]; subst. constructor; [|exact Hps].
      simpl. destruct (ascii_dec sep c) as [->|_].
      * rewrite Ascii.eqb_refl in E. discriminate.
      * exact Hp.
Qed.

(** * The in-memory file system keeps the contract of [os.MkdirAll] *)

Module MemFSFacts.
Import Deploy MemFS.

Lemma path_eqb_refl (p : path) : path_eqb p p = true.
Proof. unfold path_eqb. destruct (list_eq_dec string_dec p p); congruence. Qed.

Lemma path_eqb_eq (p q : path) : path_eqb p q = true -> p = q.
Proof. unfold path_eqb. destruct (list_eq_dec string_dec p q); congruence. Qed.

Lemma all_dirs_mkdirs (cs : list string) :
  forall pre t, all_dirs pre cs t = true -> mkdirs pre cs t = (t, None).
Proof.
  induction cs as [|c cs IH]; intros pre t Hd; simpl in *; [reflexivity|].
  destruct (lookup (pre ++ [c])%list t) as [[|]|]; try discriminate.
  now apply IH.
Qed.

Lemma mkdirs_lookup (cs : list string) :
  forall pre t q n,
    lookup q t = Some n -> lookup q (fst (mkdirs pre cs t)) = Some n.
Proof.
  induction cs as [|c cs IH]; intros pre t q n Hq; simpl; [exact Hq|].
  destruct (lookup (pre ++ [c])%list t) as [[|]|] eqn:Hp; simpl.
  - now apply IH.
  - exact Hq.
  - apply IH. simpl. destruct (path_eqb q (pre ++ [c])%list) eqn:E; [|exact Hq].
    apply path_eqb_eq in E. subst q. congruence.
Qed.

Lemma mkdirs_all_dirs (cs : list string) :
  forall pre t t', mkdirs pre cs t = (t', None) -> all_dirs pre cs t' = true.
Proof.
  induction cs as [|c cs IH]; intros pre t t' Hm; simpl in *; [reflexivity|].
  destruct (lookup (pre ++ [c])%list t) as [[|]|] eqn:Hp; try discriminate.
  - pose proof (mkdirs_lookup cs (pre ++ [c])%list t _ _ Hp) as Hk.
    rewrite Hm in Hk. simpl in Hk. rewrite Hk. eapply IH; eauto.
  - assert (Hn : lookup (pre ++ [c])%list (((pre ++ [c])%list, Directory) :: t)
                 = Some Directory)
      by (simpl; now rewrite path_eqb_refl).
    pose proof (mkdirs_lookup cs (pre ++ [c])%list _ _ _ Hn) as Hk.
    rewrite Hm in Hk. simpl in Hk. rewrite Hk. eapply IH; eauto.
Qed.

Lemma all_dirs_kept (cs : list string) :
  forall pre t t',
    (forall q n, lookup q t = Some n -> lookup q t' = Some n) ->
    all_dirs pre cs t = true -> all_dirs pre cs t' = true.
Proof.
  induction cs as [|c cs IH]; intros pre t t' Hext Hd; simpl in *; [reflexivity|].
  destruct (lookup (pre ++ [c])%list t) as [[|]|] eqn:Hp; try discriminate.
  rewrite (Hext _ _ Hp). eapply IH; eauto.
Qed.

Lemma memFS_contract : MkdirAll_contract (H := memFS).
Proof.
  constructor.
  - intros p t. simpl. unfold mem_IsDir, mem_MkdirAll.
    destruct (p =? ""); simpl; [discriminate|]. apply all_dirs_mkdirs.
  - intros p t t'. simpl. unfold mem_IsDir, mem_MkdirAll.
    destruct (p =? ""); simpl; [discriminate|]. apply mkdirs_all_dirs.
  - intros p q t. simpl. unfold mem_IsDir, mem_MkdirAll.
    destruct (q =? ""); simpl; [discriminate|].
    destruct (p =? ""); simpl; [trivial|].
    apply all_dirs_kept. intros. now apply mkdirs_lookup.
Qed.

End MemFSFacts.

(** * Facts about [RunDeploy] *)

Module DeployFacts.
Import Deploy.

Section Facts.
Context `{Host}.
Variable sdk : SdkStatus.

Lemma written_app (t u : list Event) :
  written (t ++ u) = (written t ++ written u)%list.
Proof.
  induction t as [|ev t IH]; simpl; [reflexivity|].
  destruct ev; simpl; now rewrite IH.
Qed.

Lemma written_no_text (evs : list Event) (b : Branch) :
  Forall (fun ev => event_branch ev = Some b) evs -> written evs = [].
Proof.
  induction 1 as [|ev evs Hev _ IH]; simpl; [reflexivity|].
  destruct ev; simpl in *; try discriminate; exact IH.
Qed.

Lemma perform_eq (ev : Event) (op : FS -> FS * option error) (w : World) :
  perform ev op w =
  ({| files := fst (op (files w)); trace := (trace w ++ [ev])%list |},
   snd (op (files w))).
Proof. unfold perform. now destruct (op (files w)). Qed.

(** Sequential composition: the steps after a prefix run on the world the
    prefix left, and only when the prefix returned no error. *)
Lemma runSteps_app (data : Data) (pre post : list Step) :
  forall w,
    runSteps sdk data (pre ++ post) w =
    match runSteps sdk data pre w with
    | (w1, None) => runSteps sdk data post w1
    | failed => failed
    end.
Proof.
  induction pre as [|step pre IH]; intros w; simpl; [reflexivity|].
  destruct (runStep sdk data step w) as [w1 [err|]]; [reflexivity|apply IH].
Qed.

(** A step writes its progress line and then calls the outside only for
    the payload the priority order selects. *)
Lemma runStep_trace (data : Data) (step : Step) (w : World) :
  exists evs,
    trace (fst (runStep sdk data step w))
    = (trace w ++ Fprintf (marker step) :: evs)%list /\
    Forall (fun ev => event_branch ev = Some (selected step)) evs.
Proof.
  unfold runStep, selected, marker.
  destruct (negb (Mkdir step =? "")).
  - destruct (InterpretString (Mkdir step) data) as [dir e].
    rewrite perform_eq. simpl. rewrite <- app_assoc. simpl.
    eexists. split; [reflexivity|]. repeat constructor.
  - destruct (negb (Exec step =? "")).
    + simpl. destruct (LookPath _ _) as [path [e|]].
      * simpl. rewrite <- app_assoc. simpl.
        eexists. split; [reflexivity|]. repeat constructor.
      * rewrite perform_eq. simpl. rewrite <- !app_assoc. simpl.
        eexists. split; [reflexivity|]. repeat constructor.
    + destruct (negb (Source (File step) =? "")).
      * destruct (InterpretString _ _) as [out [e|]].
        -- simpl. exists []. split; [reflexivity|constructor].
        -- rewrite perform_eq. simpl. rewrite <- app_assoc. simpl.
           eexists. split; [reflexivity|]. repeat constructor.
      * simpl. exists []. split; [reflexivity|constructor].
Qed.

Lemma runStep_written (data : Data) (step : Step) (w : World) :
  written (trace (fst (runStep sdk data step w)))
  = (written (trace w) ++ [marker step])%list.
Proof.
  destruct (runStep_trace data step w) as (evs & -> & Hevs).
  rewrite written_app. simpl. now rewrite (written_no_text _ _ Hevs).
Qed.

Lemma runSteps_written (data : Data) (steps : list Step) :
  forall w w',
    runSteps sdk data steps w = (w', None) ->
    written (trace w') = (written (trace w) ++ map marker steps)%list.
Proof.
  induction steps as [|step steps IH]; intros w w' Hrun; simpl in *.
  - inversion Hrun; subst. now rewrite app_nil_r.
  - pose proof (runStep_written data step w) as Hw.
    destruct (runStep sdk data step w) as [w1 [err|]]; [discriminate|].
    rewrite (IH _ _ Hrun). simpl in Hw. rewrite Hw, <- app_assoc. reflexivity.
Qed.

Lemma nonempty_test (s : string) : s <> "" -> negb (s =? "") = true.
Proof. intros Hs. apply negb_true_iff, String.eqb_neq, Hs. Qed.

Lemma mkdir_step_eq (data : Data) (step : Step) (w : World) :
  Mkdir step <> "" ->
  runStep sdk data step w =
  perform (EvMkdirAll (createDir data step)) (MkdirAll (createDir data step))
          (emit (Fprintf (marker step)) w).
Proof.
  intros Hm. unfold runStep, createDir, marker. rewrite (nonempty_test _ Hm).
  now destruct (InterpretString (Mkdir step) data).
Qed.

(** C3: the steps run in the order of the plan and the run is fail-fast.
    When the steps before step k return no error and step k returns [err],
    [RunDeploy] returns [err] in the very world step k left: nothing of
    the steps after k has happened, what the earlier steps did is still
    there, and the progress lines written are the banner and the lines of
    steps 1..k in the order of the plan. *)
Theorem RunDeploy_fail_fast (plan : SDKInit) (pre post : list Step)
  (step : Step) (w w1 w2 : World) (err : error) :
  LoadSDKInit (Dir sdk ++ "deploy.yaml") = (plan, None) ->
  Steps (Spec plan) = (pre ++ step :: post)%list ->
  runSteps sdk [] pre (emit (Fprintf (banner sdk)) w) = (w1, None) ->
  runStep sdk [] step w1 = (w2, Some err) ->
  RunDeploy sdk w = (w2, Some err) /\
  written (trace w2)
  = (written (trace w) ++ banner sdk :: map marker (pre ++ [step]))%list.
Proof.
  intros Hload Hsteps Hpre Hstep. split.
  - unfold RunDeploy. rewrite Hload, Hsteps, runSteps_app.
    fold (banner sdk). rewrite Hpre. simpl. now rewrite Hstep.
  - pose proof (runStep_written [] step w1) as Hw.
    rewrite Hstep in Hw. simpl in Hw. rewrite Hw.
    rewrite (runSteps_written [] pre _ _ Hpre). simpl.
    rewrite written_app, map_app. simpl. now rewrite <- !app_assoc.
Qed.

(** C8: a step with no mkdir, no exec and no file source stops the plan
    with the configuration error, whose message holds the name of the
    step; only its progress line has been written, and no later step
    runs. *)
Theorem step_without_payload_aborts (plan : SDKInit) (pre post : list Step)
  (step : Step) (w w1 : World) :
  LoadSDKInit (Dir sdk ++ "deploy.yaml") = (plan, None) ->
  Steps (Spec plan) = (pre ++ step :: post)%list ->
  runSteps sdk [] pre (emit (Fprintf (banner sdk)) w) = (w1, None) ->
  Mkdir step = "" -> Exec step = "" -> Source (File step) = "" ->
  RunDeploy sdk w
  = (emit (Fprintf (marker step)) w1,
     Some (ErrorString ("invalid config step '" ++ Name step
                        ++ "' - no command specified"))) /\
  Contains ("invalid config step '" ++ Name step ++ "' - no command specified")
           (Name step) = true.
Proof.
  intros Hload Hsteps Hpre Hm He Hs. split.
  - unfold RunDeploy. rewrite Hload, Hsteps, runSteps_app.
    fold (banner sdk). rewrite Hpre. simpl.
    unfold runStep. rewrite Hm, He, Hs. reflexivity.
  - apply Contains_append.
Qed.

(** C10: the payloads are tested in the order mkdir, exec, file source,
    and the first one that is set is carried out, and only that one.
    - A step with a mkdir payload makes the directory of that payload:
      its one outside call is [os.MkdirAll] on the rendered path, whose
      file system and error are the step's.
    - A step without mkdir but with an exec payload looks up the first
      piece of its command line and, when it is found, runs the process,
      whose file system and error are the step's.
    - A step with only a file source renders the destination and then the
      template, whose file system and error are the step's.
    - A step with none of the three, a destination alone included, returns
      the configuration error after its progress line.
    The payloads of lower priority make no difference to what a step
    does, and every outside call of a step belongs to the payload
    selected. *)
Theorem step_dispatch_priority (data : Data) (step : Step) (w : World) :
  (Mkdir step <> "" ->
   runStep sdk data step w = runStep sdk data (only_mkdir step) w /\
   runStep sdk data step w
   = ({| files := fst (MkdirAll (createDir data step) (files w));
         trace := (trace w ++ [Fprintf (marker step);
                               EvMkdirAll (createDir data step)])%list |},
      snd (MkdirAll (createDir data step) (files w)))) /\
  (Mkdir step = "" -> Exec step <> "" ->
   runStep sdk data step w = runStep sdk data (only_exec step) w /\
   (forall path e,
       LookPath (hd "" (Split (Exec step) " ")) (files w) = (path, Some e) ->
       runStep sdk data step w
       = ({| files := files w;
             trace := (trace w
                       ++ [Fprintf (marker step);
                           EvLookPath (hd "" (Split (Exec step) " "))])%list |},
          Some e)) /\
   (forall path,
       LookPath (hd "" (Split (Exec step) " ")) (files w) = (path, None) ->
       runStep sdk data step w
       = ({| files := fst (cmd_Run (command path (Split (Exec step) " "))
                                   (files w));
             trace := (trace w
                       ++ [Fprintf (marker step);
                           EvLookPath (hd "" (Split (Exec step) " "));
                           EvRun (command path (Split (Exec step) " "))])%list |},
          snd (cmd_Run (command path (Split (Exec step) " ")) (files w))))) /\
  (Mkdir step = "" -> Exec step = "" -> Source (File step) <> "" ->
   (forall out e,
       InterpretString (Destination (File step)) data = (out, Some e) ->
       runStep sdk data step w = (emit (Fprintf (marker step)) w, Some e)) /\
   (forall outFile,
       InterpretString (Destination (File step)) data = (outFile, None) ->
       runStep sdk data step w
       = ({| files := fst (RenderTemplate
                             (Dir sdk ++ "/" ++ Source (File step)) outFile
                             data (files w));
             trace := (trace w
                       ++ [Fprintf (marker step);
                           EvRenderTemplate
                             (Dir sdk ++ "/" ++ Source (File step))
                             outFile])%list |},
          snd (RenderTemplate (Dir sdk ++ "/" ++ Source (File step)) outFile
                              data (files w))))) /\
  (Mkdir step = "" -> Exec step = "" -> Source (File step) = "" ->
   runStep sdk data step w
   = (emit (Fprintf (marker step)) w, Some (configError step))) /\
  (exists evs,
      trace (fst (runStep sdk data step w))
      = (trace w ++ Fprintf (marker step) :: evs)%list /\
      Forall (fun ev => event_branch ev = Some (selected step)) evs).
Proof.
  split; [|split; [|split; [|split]]].
  - intros Hm. split.
    + unfold runStep, only_mkdir. simpl. now rewrite (nonempty_test _ Hm).
    + rewrite (mkdir_step_eq data step w Hm), perform_eq.
      unfold emit. cbn [files trace]. now rewrite <- app_assoc.
  - intros Hm He. split; [|split].
    + unfold runStep, only_exec. simpl.
      now rewrite Hm, (nonempty_test _ He).
    + intros path e Hl. unfold runStep.
      rewrite Hm, (nonempty_test _ He). simpl. rewrite Hl.
      unfold emit. simpl. now rewrite <- app_assoc.
    + intros path Hl. unfold runStep.
      rewrite Hm, (nonempty_test _ He). simpl. rewrite Split_length, Hl.
      rewrite perform_eq. simpl.
      fold (command path (Split (Exec step) " ")).
      now rewrite <- !app_assoc.
  - intros Hm He Hs. split.
    + intros out e Hr. unfold runStep.
      rewrite Hm, He, (nonempty_test _ Hs). simpl. now rewrite Hr.
    + intros outFile Hr. unfold runStep.
      rewrite Hm, He, (nonempty_test _ Hs). simpl. rewrite Hr.
      rewrite perform_eq. simpl. now rewrite <- app_assoc.
  - intros Hm He Hs. unfold runStep. now rewrite Hm, He, Hs.
  - apply runStep_trace.
Qed.

(** C6, as the code has it: the command line of an exec step is cut at
    every single space (and at nothing else): the pieces hold no space and
    joined by single spaces they give the command line back.  The first
    piece is looked up on the search path; when the lookup fails its error
    ends the plan and no process is run; otherwise one process is run, with
    the path found, the remaining pieces as arguments, the environment and
    the three standard streams of the parent, and its error is the
    step's. *)
Theorem exec_step_splits_at_spaces (data : Data) (step : Step)
  (post : list Step) (w : World) :
  Mkdir step = "" -> Exec step <> "" ->
  let parts := Split (Exec step) " " in
  let w0 := emit (EvLookPath (hd "" parts)) (emit (Fprintf (marker step)) w) in
  (parts <> [] /\ Join parts " " = Exec step /\
   Forall (fun piece => Contains piece " " = false) parts) /\
  (forall path e,
      LookPath (hd "" parts) (files w) = (path, Some e) ->
      runSteps sdk data (step :: post) w = (w0, Some e)) /\
  (forall path,
      LookPath (hd "" parts) (files w) = (path, None) ->
      runStep sdk data step w
      = perform (EvRun (command path parts)) (cmd_Run (command path parts)) w0).
Proof.
  intros Hm He parts w0. split; [|split].
  - split; [apply Split_not_nil|]. split; [apply Join_Split|apply Split_pieces].
  - intros path e Hl. simpl. unfold runStep.
    rewrite Hm, (nonempty_test _ He). simpl.
    fold parts. rewrite Hl. reflexivity.
  - intros path Hl. unfold runStep.
    rewrite Hm, (nonempty_test _ He). simpl.
    rewrite Split_length. fold parts. rewrite Hl. reflexivity.
Qed.

(** A run that returns nil has written the banner and then one progress
    line per step, in the order of the plan. *)
Theorem RunDeploy_progress_in_plan_order (plan : SDKInit) (w w' : World) :
  LoadSDKInit (Dir sdk ++ "deploy.yaml") = (plan, None) ->
  RunDeploy sdk w = (w', None) ->
  written (trace w')
  = (written (trace w) ++ banner sdk :: map marker (Steps (Spec plan)))%list.
Proof.
  intros Hload Hrun. unfold RunDeploy in Hrun. rewrite Hload in Hrun.
  rewrite (runSteps_written [] _ _ _ Hrun). unfold emit. cbn [trace].
  rewrite written_app, <- app_assoc. reflexivity.
Qed.

(** The error of a mkdir step is the error of [os.MkdirAll] on the text
    that [InterpretString] returned; the error that came with that text
    plays no part. *)
Theorem mkdir_step_error_is_MkdirAll_error (data : Data) (step : Step)
  (w : World) :
  Mkdir step <> "" ->
  snd (runStep sdk data step w)
  = snd (MkdirAll (fst (InterpretString (Mkdir step) data)) (files w)).
Proof.
  intros Hm. unfold runStep. rewrite (nonempty_test _ Hm).
  destruct (InterpretString (Mkdir step) data) as [dir e].
  rewrite perform_eq. reflexivity.
Qed.

Section Idempotence.
Hypothesis contract : MkdirAll_contract.

Lemma mkdir_steps_keep (data : Data) (steps : list Step) :
  Forall (fun step => Mkdir step <> "") steps ->
  forall w q,
    IsDir q (files w) = true ->
    IsDir q (files (fst (runSteps sdk data steps w))) = true.
Proof.
  induction 1 as [|step steps Hm _ IH]; intros w q Hq; simpl; [exact Hq|].
  rewrite (mkdir_step_eq data step w Hm), perform_eq.
  pose proof (MkdirAll_keeps contract (createDir data step) q (files w) Hq) as Hk.
  simpl. destruct (snd (MkdirAll (createDir data step) (files w))).
  - exact Hk.
  - apply IH. exact Hk.
Qed.

Lemma mkdir_steps_create (data : Data) (steps : list Step) :
  Forall (fun step => Mkdir step <> "") steps ->
  forall w w',
    runSteps sdk data steps w = (w', None) ->
    Forall (fun step => IsDir (createDir data step) (files w') = true) steps.
Proof.
  induction 1 as [|step steps Hm Hms IH]; intros w w' Hrun; [constructor|].
  simpl in Hrun. rewrite (mkdir_step_eq data step w Hm), perform_eq in Hrun.
  simpl in Hrun.
  destruct (MkdirAll (createDir data step) (files w)) as [fs1 [err|]] eqn:Hmk;
    simpl in Hrun; [discriminate|].
  constructor; [|eapply IH; eauto].
  pose proof (mkdir_steps_keep data steps Hms
                {| files := fs1;
                   trace := ((trace w ++ [Fprintf (marker step)])
                             ++ [EvMkdirAll (createDir data step)])%list |}
                (createDir data step)
                (MkdirAll_creates contract _ _ _ Hmk)) as Hk.
  rewrite Hrun in Hk. exact Hk.
Qed.

Lemma mkdir_steps_existing (data : Data) (steps : list Step) :
  Forall (fun step => Mkdir step <> "") steps ->
  forall w,
    Forall (fun step => IsDir (createDir data step) (files w) = true) steps ->
    exists w', runSteps sdk data steps w = (w', None) /\ files w' = files w.
Proof.
  induction 1 as [|step steps Hm _ IH]; intros w Hd; simpl.
  - now exists w.
  - inversion Hd as [|? ? Hstep Hrest]; subst.
    rewrite (mkdir_step_eq data step w Hm), perform_eq. simpl.
    rewrite (MkdirAll_existing contract _ _ Hstep). simpl.
    destruct (IH {| files := files w;
                    trace := ((trace w ++ [Fprintf (marker step)])
                              ++ [EvMkdirAll (createDir data step)])%list |}
                 Hrest) as (w' & Hrun & Hfiles).
    exists w'. split; [exact Hrun|exact Hfiles].
Qed.

(** C9: mkdir steps are idempotent.  On a file system that keeps the
    contract of [os.MkdirAll], a plan of mkdir steps that ran without error
    runs without error when it is run again on the state the first run
    left: every directory of the plan exists by then, which is no error,
    and the second run changes nothing in the file system.  This holds
    whether or not the path templates rendered without error. *)
Theorem mkdir_plan_idempotent (plan : SDKInit) (w w1 : World) :
  LoadSDKInit (Dir sdk ++ "deploy.yaml") = (plan, None) ->
  Forall (fun step => Mkdir step <> "") (Steps (Spec plan)) ->
  RunDeploy sdk w = (w1, None) ->
  exists w2, RunDeploy sdk w1 = (w2, None) /\ files w2 = files w1.
Proof.
  intros Hload Hm Hrun. unfold RunDeploy in *. rewrite Hload in *.
  pose proof (mkdir_steps_create [] _ Hm _ _ Hrun) as Hdirs.
  destruct (mkdir_steps_existing [] _ Hm
              (emit (Fprintf ("Using SDK: " ++ SdkName sdk
                              ++ " deploy plans" ++ newline)) w1) Hdirs)
    as (w2 & Hrun2 & Hfiles).
  exists w2. split; [exact Hrun2|exact Hfiles].
Qed.

End Idempotence.

End Facts.

(** *** The statements on the small host *)

Import MemFS MemFSFacts.

Lemma RunDeploy_fail_fast_witness :
  snd (RunDeploy (H0 := host threeSteps) sdk start)
  = Some (LookPathError "nosuchtool" "executable file not found in $PATH") /\
  written (trace (fst (RunDeploy (H0 := host threeSteps) sdk start)))
  = [banner sdk; marker (mkdirStep "one" "build/out");
     marker (execStep "two" "nosuchtool -x")].
Proof.
  pose proof (RunDeploy_fail_fast (H0 := host threeSteps) sdk
                {| Spec := {| Steps := threeSteps |} |}
                [mkdirStep "one" "build/out"] [mkdirStep "three" "late"]
                (execStep "two" "nosuchtool -x") start _ _
                (LookPathError "nosuchtool" "executable file not found in $PATH")
                eq_refl eq_refl eq_refl eq_refl) as [Hrun Hwritten].
  rewrite Hrun. split; [reflexivity|exact Hwritten].
Defined.

Lemma step_without_payload_aborts_witness :
  RunDeploy (H0 := host [fileStep "orphan" "" "out/main.go";
                         mkdirStep "later" "late"]) sdk start
  = ({| files := files start;
        trace := [Fprintf (banner sdk);
                  Fprintf (marker (fileStep "orphan" "" "out/main.go"))] |},
     Some (ErrorString "invalid config step 'orphan' - no command specified")).
Proof.
  exact (proj1 (step_without_payload_aborts
                  (H0 := host [fileStep "orphan" "" "out/main.go";
                               mkdirStep "later" "late"]) sdk
                  {| Spec := {| Steps := [fileStep "orphan" "" "out/main.go";
                                          mkdirStep "later" "late"] |} |}
                  [] [mkdirStep "later" "late"]
                  (fileStep "orphan" "" "out/main.go") start _
                  eq_refl eq_refl eq_refl eq_refl eq_refl eq_refl)).
Defined.

(** A step with all three payloads set only makes its directory, and a
    step with a command line and a file only runs the command. *)
Lemma step_dispatch_priority_witness :
  runStep (H0 := host []) sdk []
          {| Name := "all"; Mkdir := "build"; Exec := "false";
             File := {| Source := "main.tmpl"; Destination := "notes/x" |} |}
          start
  = ({| files := (["build"], Directory) :: files start;
        trace := [Fprintf (marker (mkdirStep "all" "build"));
                  EvMkdirAll "build"] |},
     None) /\
  runStep (H0 := host []) sdk []
          {| Name := "two"; Mkdir := ""; Exec := "false -x";
             File := {| Source := "main.tmpl"; Destination := "out" |} |}
          start
  = ({| files := files start;
        trace := [Fprintf (marker (execStep "two" "false -x"));
                  EvLookPath "false";
                  EvRun {| Path := "/bin/false"; Args := ["-x"];
                           Env := ["PATH=/bin"]; Stdin := os_Stdin;
                           Stdout := os_Stdout; Stderr := os_Stderr |}] |},
     Some (ExitError "exit status 1")).
Proof.
  split.
  - destruct (step_dispatch_priority (H0 := host []) sdk []
                {| Name := "all"; Mkdir := "build"; Exec := "false";
                   File := {| Source := "main.tmpl";
                              Destination := "notes/x" |} |}
                start) as [Hmkdir _].
    destruct Hmkdir as [_ Hrun]; [discriminate|].
    rewrite Hrun. reflexivity.
  - destruct (step_dispatch_priority (H0 := host []) sdk []
                {| Name := "two"; Mkdir := ""; Exec := "false -x";
                   File := {| Source := "main.tmpl"; Destination := "out" |} |}
                start) as (_ & Hexec & _).
    destruct Hexec as (_ & _ & Hrun); [reflexivity|discriminate|].
    rewrite (Hrun "/bin/false" eq_refl). reflexivity.
Defined.

Lemma exec_step_splits_at_spaces_witness :
  runStep (H0 := host []) sdk [] (execStep "list" "echo  -n a") start
  = ({| files := files start;
        trace := [Fprintf (marker (execStep "list" "echo  -n a"));
                  EvLookPath "echo";
                  EvRun {| Path := "/bin/echo"; Args := [""; "-n"; "a"];
                           Env := ["PATH=/bin"]; Stdin := os_Stdin;
                           Stdout := os_Stdout; Stderr := os_Stderr |}] |},
     None).
Proof.
  pose proof (exec_step_splits_at_spaces (H0 := host []) sdk []
                (execStep "list" "echo  -n a") [] start eq_refl)
    as Hexec.
  destruct Hexec as (_ & _ & Hrun); [discriminate|].
  rewrite (Hrun "/bin/echo" eq_refl). reflexivity.
Defined.

(** C6, as stated, fails on a command line with a tab: read on white
    space it is the program [echo] with the argument [hi], but the step
    looks up the whole line as one program name and stops with the lookup
    error. *)
Lemma exec_step_whitespace_counterexample :
  Fields ("echo" ++ tab ++ "hi") = ["echo"; "hi"] /\
  Split ("echo" ++ tab ++ "hi") " " = ["echo" ++ tab ++ "hi"] /\
  snd (runStep (H0 := host []) sdk []
         (execStep "greet" ("echo" ++ tab ++ "hi")) start)
  = Some (LookPathError ("echo" ++ tab ++ "hi")
                        "executable file not found in $PATH") /\
  ~ exec_on_whitespace (H0 := host []) sdk []
      (execStep "greet" ("echo" ++ tab ++ "hi")) start.
Proof.
  repeat split; try reflexivity.
  intros [Hin _]. vm_compute in Hin.
  destruct Hin as [Hin|[Hin|[]]]; discriminate.
Qed.

Lemma mkdir_plan_idempotent_witness :
  exists w2,
    RunDeploy (H0 := host twoDirs) sdk
      (fst (RunDeploy (H0 := host twoDirs) sdk start))
    = (w2, None) /\
    files w2 = files (fst (RunDeploy (H0 := host twoDirs) sdk start)).
Proof.
  apply (mkdir_plan_idempotent (H0 := host twoDirs) sdk memFS_contract
           {| Spec := {| Steps := twoDirs |} |} start).
  - reflexivity.
  - repeat constructor; discriminate.
  - reflexivity.
Defined.

Lemma RunDeploy_progress_in_plan_order_witness :
  written (trace (fst (RunDeploy (H0 := host twoDirs) sdk start)))
  = [banner sdk; marker (mkdirStep "one" "build/out");
     marker (mkdirStep "two" "build")].
Proof.
  exact (RunDeploy_progress_in_plan_order (H0 := host twoDirs) sdk
           {| Spec := {| Steps := twoDirs |} |} start _ eq_refl eq_refl).
Defined.

Lemma mkdir_step_error_is_MkdirAll_error_witness :
  snd (runStep (H0 := host []) sdk [] (mkdirStep "workdir" "notes/{{name}}")
         start)
  = Some (PathError "mkdir" "" "no such file or directory").
Proof.
  rewrite (mkdir_step_error_is_MkdirAll_error (H0 := host []) sdk []
             (mkdirStep "workdir" "notes/{{name}}") start).
  - reflexivity.
  - discriminate.
Defined.

(** C1 on the code: the error of rendering the path of a mkdir step is
    overwritten by the result of [os.MkdirAll].  Here the path refers to
    a key the context does not have; rendering fails, and what [RunDeploy]
    returns is the error of making the directory with the empty name. *)
Theorem mkdir_render_error_is_lost :
  InterpretString (Host := host [mkdirStep "workdir" "build/{{name}}"])
                  "build/{{name}}" []
  = ("", Some (TemplateError "no entry for key name")) /\
  snd (RunDeploy (H0 := host [mkdirStep "workdir" "build/{{name}}"]) sdk start)
  = Some (PathError "mkdir" "" "no such file or directory").
Proof. split; reflexivity. Qed.

End DeployFacts.

(** * Facts about the runner and its loops *)

Module E2EFacts.
Import E2E.

Section Facts.
Context `{Cluster}.

(** The loop of [checkNamespace] runs while [retries < MaxRetries]. *)
Lemma checkNamespace_from_unfold (retries : Z) (namespace : string)
  (created : bool) (maxRetries : Z) :
  checkNamespace_from retries namespace created maxRetries =
  if (retries <? MaxRetries)%Z
  then checkNamespace_loop (S (Z.to_nat (MaxRetries - (retries + 1))))
                           retries namespace created maxRetries
  else ret true.
Proof.
  unfold checkNamespace_from.
  destruct (Z.ltb_spec retries MaxRetries) as [Hlt|Hge].
  - replace (Z.to_nat (MaxRetries - retries))
      with (S (Z.to_nat (MaxRetries - (retries + 1)))) by lia.
    reflexivity.
  - replace (Z.to_nat (MaxRetries - retries)) with O by lia. reflexivity.
Qed.

(** The loop of [createNamespace] runs while [retries < maxRetries]. *)
Lemma createNamespace_from_unfold (retries : Z) (out : string)
  (err : option error) (namespace : string) (maxRetries : Z) :
  createNamespace_from retries out err namespace maxRetries =
  if (retries <? maxRetries)%Z
  then createNamespace_loop (S (Z.to_nat (maxRetries - (retries + 1))))
                            retries out err namespace maxRetries
  else ret (out, err).
Proof.
  unfold createNamespace_from.
  destruct (Z.ltb_spec retries maxRetries) as [Hlt|Hge].
  - replace (Z.to_nat (maxRetries - retries))
      with (S (Z.to_nat (maxRetries - (retries + 1)))) by lia.
    reflexivity.
  - replace (Z.to_nat (maxRetries - retries)) with O by lia. reflexivity.
Qed.

Lemma unsatisfied_tests (created : bool) (output namespace : string) :
  satisfied created output namespace = false ->
  negb created && negb (Contains output namespace) = false /\
  created && Contains output namespace = false.
Proof.
  unfold satisfied. destruct created; simpl; intros Hs.
  - now rewrite Hs.
  - apply negb_false_iff in Hs. now rewrite Hs.
Qed.

Lemma checkNamespace_loop_exhausts (namespace : string) (created : bool)
  (maxRetries : Z) (n : nat) :
  forall retries st,
    (forall i, (i < n)%nat ->
               exists out e,
                 kubectl (started st + i) getArgs noOpts = Returned (out, e) /\
                 satisfied created out namespace = false) ->
    checkNamespace_loop n retries namespace created maxRetries st
    = (Returned true,
       {| started := started st + n;
          trace := (trace st ++ checkRounds n retries maxRetries)%list |}).
Proof.
  induction n as [|n IH]; intros retries st Hall.
  - simpl. unfold ret. destruct st as [k t]. simpl.
    now rewrite Nat.add_0_r, app_nil_r.
  - destruct (Hall O ltac:(lia)) as (out & e & Hk & Hs).
    rewrite Nat.add_0_r in Hk.
    destruct (unsatisfied_tests _ _ _ Hs) as [H1 H2].
    cbn [checkNamespace_loop]. unfold bind at 1.
    unfold kubectl_RunWithOpts at 1. fold getArgs. rewrite Hk.
    cbn [fst]. rewrite H1, H2.
    unfold bind, Debugf, Sleep, record. cbn [started trace].
    rewrite IH.
    + cbn [started trace checkRounds]. f_equal. f_equal; [lia|].
      rewrite <- !app_assoc. reflexivity.
    + intros i Hi. cbn [started].
      destruct (Hall (S i) ltac:(lia)) as (out' & e' & Hk' & Hs').
      exists out', e'. split; [|exact Hs'].
      rewrite <- Hk'. f_equal. lia.
Qed.

(** C2: when none of the listings made before the loop runs out meets
    the target condition, [checkNamespace] still returns true.  The loop
    has then made [MaxRetries] listings, a pause after each. *)
Theorem checkNamespace_true_on_exhaustion (namespace : string)
  (created : bool) (maxRetries : Z) (st : State) :
  (forall i, (i < Z.to_nat MaxRetries)%nat ->
             exists out e,
               kubectl (started st + i) getArgs noOpts = Returned (out, e) /\
               satisfied created out namespace = false) ->
  checkNamespace namespace created maxRetries st
  = (Returned true,
     {| started := started st + Z.to_nat MaxRetries;
        trace := (trace st
                  ++ checkRounds (Z.to_nat MaxRetries) 0 maxRetries)%list |}).
Proof.
  intros Hall. unfold checkNamespace, checkNamespace_from.
  rewrite Z.sub_0_r. now apply checkNamespace_loop_exhausts.
Qed.

Lemma checkNamespace_loop_true_or_exit (namespace : string) (created : bool)
  (maxRetries : Z) (n : nat) :
  forall retries st r,
    fst (checkNamespace_loop n retries namespace created maxRetries st) = r ->
    r = Returned true \/ exists msg, r = Exited msg.
Proof.
  induction n as [|n IH]; intros retries st r Hr.
  - left. now rewrite <- Hr.
  - cbn [checkNamespace_loop] in Hr. unfold bind at 1 in Hr.
    unfold kubectl_RunWithOpts at 1 in Hr.
    destruct (kubectl (started st) ["get"; "namespace"] noOpts)
      as [[out e]|msg].
    + cbn [fst] in Hr.
      destruct (negb created && negb (Contains out namespace));
        [left; now rewrite <- Hr|].
      destruct (created && Contains out namespace);
        [left; now rewrite <- Hr|].
      unfold bind, Debugf, Sleep, record in Hr. eapply IH. exact Hr.
    + right. exists msg. now rewrite <- Hr.
Qed.

(** Whatever the cluster answers, [checkNamespace] never returns false:
    it returns true, unless a call of kubectl ends the run. *)
Theorem checkNamespace_never_false (namespace : string) (created : bool)
  (maxRetries : Z) (st : State) :
  fst (checkNamespace namespace created maxRetries st) = Returned true \/
  exists msg,
    fst (checkNamespace namespace created maxRetries st) = Exited msg.
Proof.
  eapply checkNamespace_loop_true_or_exit. reflexivity.
Qed.

(** The first listing that meets the condition ends the poller at once:
    it returns true after one call of kubectl and no pause. *)
Theorem checkNamespace_first_listing (namespace : string) (created : bool)
  (maxRetries : Z) (st : State) (out : string) (e : option error) :
  kubectl (started st) getArgs noOpts = Returned (out, e) ->
  satisfied created out namespace = true ->
  checkNamespace namespace created maxRetries st
  = (Returned true,
     {| started := S (started st);
        trace := (trace st ++ [EvKubectl getArgs noOpts])%list |}).
Proof.
  intros Hk Hs. unfold checkNamespace. rewrite checkNamespace_from_unfold.
  change (0 <? MaxRetries)%Z with true. cbn iota.
  cbn [checkNamespace_loop]. unfold bind at 1.
  unfold kubectl_RunWithOpts at 1. fold getArgs. rewrite Hk. cbn [fst].
  unfold satisfied in Hs. destruct created; simpl in *.
  - rewrite Hs. reflexivity.
  - rewrite Hs. reflexivity.
Qed.

Lemma createNamespace_loop_succeeds (namespace : string) (maxRetries : Z)
  (k : nat) :
  forall n retries out0 err0 st (outs : nat -> string) (errs : nat -> error)
         (out : string),
    (k < n)%nat ->
    (forall i, (i < k)%nat ->
               kubectl (started st + i) (createArgs namespace) allowError
               = Returned (outs i, Some (errs i))) ->
    kubectl (started st + k) (createArgs namespace) allowError
    = Returned (out, None) ->
    createNamespace_loop n retries out0 err0 namespace maxRetries st
    = (Returned (out, None),
       {| started := started st + k + 1;
          trace := (trace st
                    ++ createRounds k retries maxRetries namespace errs
                    ++ [EvKubectl (createArgs namespace) allowError])%list |}).
Proof.
  induction k as [|k IH]; intros n retries out0 err0 st outs errs out Hkn Hfail Hok.
  - destruct n as [|n]; [lia|].
    rewrite Nat.add_0_r in Hok.
    cbn [createNamespace_loop]. unfold bind at 1.
    unfold kubectl_RunWithOpts at 1.
    fold (createArgs namespace). fold allowError. rewrite Hok.
    unfold ret. cbn [createRounds]. f_equal. f_equal. lia.
  - destruct n as [|n]; [lia|].
    pose proof (Hfail O ltac:(lia)) as H0. rewrite Nat.add_0_r in H0.
    cbn [createNamespace_loop]. unfold bind at 1.
    unfold kubectl_RunWithOpts at 1.
    fold (createArgs namespace). fold allowError. rewrite H0.
    unfold bind, Debugf, Sleep, record. cbn [started trace].
    rewrite (IH n _ _ _ _ (fun i => outs (S i)) (fun i => errs (S i)) out).
    + cbn [started trace createRounds]. f_equal. f_equal; [lia|].
      rewrite <- !app_assoc. reflexivity.
    + lia.
    + intros i Hi. cbn [started]. rewrite <- (Hfail (S i)) by lia.
      f_equal. lia.
    + cbn [started]. rewrite <- Hok. f_equal. lia.
Qed.

Lemma createNamespace_loop_gives_up (namespace : string) (maxRetries : Z)
  (n : nat) :
  forall retries out0 err0 st (outs : nat -> string) (errs : nat -> error),
    (forall i, (i < n)%nat ->
               kubectl (started st + i) (createArgs namespace) allowError
               = Returned (outs i, Some (errs i))) ->
    createNamespace_loop n retries out0 err0 namespace maxRetries st
    = (Returned (match n with
                 | O => (out0, err0)
                 | S m => (outs m, Some (errs m))
                 end),
       {| started := started st + n;
          trace := (trace st
                    ++ createRounds n retries maxRetries namespace errs)%list |}).
Proof.
  induction n as [|n IH]; intros retries out0 err0 st outs errs Hfail.
  - simpl. unfold ret. destruct st as [k t]. simpl.
    now rewrite Nat.add_0_r, app_nil_r.
  - pose proof (Hfail O ltac:(lia)) as H0. rewrite Nat.add_0_r in H0.
    cbn [createNamespace_loop]. unfold bind at 1.
    unfold kubectl_RunWithOpts at 1.
    fold (createArgs namespace). fold allowError. rewrite H0.
    unfold bind, Debugf, Sleep, record. cbn [started trace].
    rewrite (IH _ _ _ _ (fun i => outs (S i)) (fun i => errs (S i))).
    + cbn [started trace createRounds]. f_equal.
      * destruct n; reflexivity.
      * f_equal; [lia|]. rewrite <- !app_assoc. reflexivity.
    + intros i Hi. cbn [started]. rewrite <- (Hfail (S i)) by lia.
      f_equal. lia.
Qed.

(** C7: [createNamespace] returns the output of the first attempt that
    succeeds, with a nil error and without a further attempt; when all
    [maxRetries] attempts fail it returns the output and the error of the
    last one.  Every failed attempt is followed by a pause of
    [RetrySleepDuration]. *)
Theorem createNamespace_bounded_retry (namespace : string) (maxRetries : Z)
  (st : State) (outs : nat -> string) (errs : nat -> error) :
  (forall k out,
      (Z.of_nat k < maxRetries)%Z ->
      (forall i, (i < k)%nat ->
                 kubectl (started st + i) (createArgs namespace) allowError
                 = Returned (outs i, Some (errs i))) ->
      kubectl (started st + k) (createArgs namespace) allowError
      = Returned (out, None) ->
      createNamespace namespace maxRetries st
      = (Returned (out, None),
         {| started := started st + k + 1;
            trace := (trace st
                      ++ createRounds k 0 maxRetries namespace errs
                      ++ [EvKubectl (createArgs namespace) allowError])%list |}))
  /\
  (forall n,
      maxRetries = Z.of_nat (S n) ->
      (forall i, (i <= n)%nat ->
                 kubectl (started st + i) (createArgs namespace) allowError
                 = Returned (outs i, Some (errs i))) ->
      createNamespace namespace maxRetries st
      = (Returned (outs n, Some (errs n)),
         {| started := started st + S n;
            trace := (trace st
                      ++ createRounds (S n) 0 maxRetries namespace errs)%list |})).
Proof.
  split.
  - intros k out Hk Hfail Hok. unfold createNamespace, createNamespace_from.
    apply (createNamespace_loop_succeeds _ _ k _ _ _ _ _ outs errs out);
      [lia|exact Hfail|exact Hok].
  - intros n Hn Hfail. unfold createNamespace, createNamespace_from.
    replace (Z.to_nat (maxRetries - 0)) with (S n) by lia.
    rewrite (createNamespace_loop_gives_up _ _ (S n) _ _ _ _ outs errs).
    + reflexivity.
    + intros i Hi. apply Hfail. lia.
Qed.

Lemma append_assoc3 (a b c : string) : (a ++ b) ++ c = a ++ b ++ c.
Proof. induction a as [|x a IH]; simpl; [reflexivity|now rewrite IH]. Qed.

Lemma Contains_append_later (a b c s d : string) :
  Contains (a ++ b ++ c ++ s ++ d) s = true.
Proof.
  rewrite <- (append_assoc3 b c), <- (append_assoc3 a (b ++ c)).
  apply Contains_append.
Qed.

Ltac enter_runner cli a opts Hrun :=
  unfold runCLIWithOpts, Debugf, record; unfold bind at 1;
  fold (builtCmd cli a opts); rewrite Hrun; cbv beta zeta.

(** C5: exit status zero gives a nil error.  A failed child (a non-zero
    exit or a failure to start) ends the whole run unless [AllowError] is
    set; with [AllowError] the runner returns, and the error it returns
    holds the captured standard error and the text of the system error. *)
Theorem runCLIWithOpts_error_policy (cli : string) (a : list string)
  (opts : runOpts) (st : State) :
  let cmd := builtCmd cli a opts in
  let done := process (started st) cmd in
  let stdout := match StdoutWriter opts with
                | Some _ => ""
                | None => stdoutText done
                end in
  let st' := {| started := S (started st);
                trace := (trace st
                          ++ [EvDebugf "Running '%s'...\n"
                                       [AStr (cmdCLIDesc cli a)];
                              EvSpawn cmd])%list |} in
  (runErr done = None ->
   runCLIWithOpts cli a opts st = (Returned (stdout, None), st')) /\
  (forall e, runErr done = Some e -> AllowError opts = false ->
             exists msg, runCLIWithOpts cli a opts st = (Exited msg, st')) /\
  (forall e, runErr done = Some e -> AllowError opts = true ->
             exists msg,
               runCLIWithOpts cli a opts st
               = (Returned (stdout, Some (ErrorString msg)), st') /\
               Contains msg (stderrText done) = true /\
               Contains msg (Error e) = true).
Proof.
  intros cmd done stdout st'.
  assert (Hrun : forall k : Completed -> M (string * option error),
             bind (cmd_Run cmd) k
                  {| started := started st;
                     trace := (trace st
                               ++ [EvDebugf "Running '%s'...\n"
                                            [AStr (cmdCLIDesc cli a)]])%list |}
             = k done st').
  { intros k. unfold bind, cmd_Run. cbn [started trace].
    subst st' done. now rewrite <- app_assoc. }
  repeat split.
  - intros Hnone. enter_runner cli a opts Hrun. now rewrite Hnone.
  - intros e He Hallow. enter_runner cli a opts Hrun.
    rewrite He, Hallow. simpl. eexists. reflexivity.
  - intros e He Hallow. enter_runner cli a opts Hrun.
    rewrite He, Hallow. simpl.
    eexists. split; [reflexivity|]. split.
    + exact (Contains_append "Execution error: stderr: '" (stderrText done) _).
    + exact (Contains_append_later "Execution error: stderr: '"
               (stderrText done) "' error: '" (Error e) "'").
Qed.

End Facts.

(** *** The statements on small clusters *)

Lemma checkNamespace_true_on_exhaustion_witness :
  fst (checkNamespace (H := steady (listing, None)) "kn-test-1" true 10 fresh)
  = Returned true /\
  kubectlCalls (trace (snd (checkNamespace (H := steady (listing, None))
                              "kn-test-1" true 10 fresh))) = 10%nat.
Proof.
  rewrite (checkNamespace_true_on_exhaustion (H := steady (listing, None))
             "kn-test-1" true 10 fresh).
  - split; reflexivity.
  - intros i _. exists listing, None. split; reflexivity.
Defined.

(** C4 on the code: the loop of [checkNamespace] is bounded by the
    constant [MaxRetries], not by its argument.  Asked for at most 3
    attempts on a cluster whose listing never shows the namespace, it lists
    10 times and pauses 10 times; [createNamespace], whose loop is bounded
    by its argument, stops after 3 attempts. *)
Theorem checkNamespace_ignores_maxRetries :
  kubectlCalls (trace (snd (checkNamespace (H := steady (listing, None))
                              "kn-test-1" true 3 fresh))) = 10%nat /\
  sleeps (trace (snd (checkNamespace (H := steady (listing, None))
                        "kn-test-1" true 3 fresh)))
  = repeat RetrySleepDuration 10 /\
  kubectlCalls (trace (snd (createNamespace (H := steady ("", Some refused))
                              "kn-test-1" 3 fresh))) = 3%nat.
Proof. repeat split; reflexivity. Qed.

Lemma checkNamespace_first_listing_witness :
  checkNamespace (H := steady ("NAME kn-test-1 Active", None))
                 "kn-test-1" true 10 fresh
  = (Returned true,
     {| started := 1; trace := [EvKubectl getArgs noOpts] |}).
Proof.
  apply (checkNamespace_first_listing
           (H := steady ("NAME kn-test-1 Active", None))
           "kn-test-1" true 10 fresh "NAME kn-test-1 Active" None);
    reflexivity.
Defined.

Lemma createNamespace_bounded_retry_witness :
  createNamespace (H := flaky 2 "" "" None) "kn-test-1" 10 fresh
  = (Returned ("namespace/kn-test-1 created", None),
     {| started := 3;
        trace := createRounds 2 0 10 "kn-test-1" (fun _ => refused)
                 ++ [EvKubectl (createArgs "kn-test-1") allowError] |}) /\
  createNamespace (H := flaky 5 "" "" None) "kn-test-1" 3 fresh
  = (Returned ("", Some refused),
     {| started := 3;
        trace := createRounds 3 0 3 "kn-test-1" (fun _ => refused) |}).
Proof.
  split.
  - apply (proj1 (createNamespace_bounded_retry (H := flaky 2 "" "" None)
                    "kn-test-1" 10 fresh (fun _ => "") (fun _ => refused))
             2%nat "namespace/kn-test-1 created").
    + reflexivity.
    + intros i Hi. destruct i as [|[|i]]; [reflexivity|reflexivity|lia].
    + reflexivity.
  - apply (proj2 (createNamespace_bounded_retry (H := flaky 5 "" "" None)
                    "kn-test-1" 3 fresh (fun _ => "") (fun _ => refused))
             2%nat).
    + reflexivity.
    + intros i Hi. destruct i as [|[|[|i]]]; try reflexivity. lia.
Defined.

Lemma runCLIWithOpts_error_policy_witness :
  fst (runCLIWithOpts (H := flaky 0 "ok" "" None) "kn" ["version"] noOpts fresh)
  = Returned ("ok", None) /\
  (exists msg,
      fst (runCLIWithOpts (H := flaky 0 "" "boom" (Some (ExitError "exit status 1")))
             "kn" ["version"] noOpts fresh) = Exited msg) /\
  fst (runCLIWithOpts (H := flaky 0 "" "boom" (Some (ExitError "exit status 1")))
         "kn" ["version"] allowError fresh)
  = Returned ("", Some (ErrorString
                "Execution error: stderr: 'boom' error: 'exit status 1'")).
Proof.
  split; [|split].
  - rewrite (proj1 (runCLIWithOpts_error_policy (H := flaky 0 "ok" "" None)
                      "kn" ["version"] noOpts fresh) eq_refl).
    reflexivity.
  - destruct (proj1 (proj2 (runCLIWithOpts_error_policy
                              (H := flaky 0 "" "boom"
                                      (Some (ExitError "exit status 1")))
                              "kn" ["version"] noOpts fresh))
                _ eq_refl eq_refl) as [msg Hmsg].
    exists msg. now rewrite Hmsg.
  - reflexivity.
Defined.

End E2EFacts.

(** * More facts about strings *)

Lemma Contains_cons_sep (c sep : ascii) (s : string) :
  Contains (String c s) (String sep "") = false ->
  c <> sep /\ Contains s (String sep "") = false.
Proof.
  cbn [Contains]. intros Hc. apply orb_false_iff in Hc.
  destruct Hc as [Hp Hrest]. split; [|exact Hrest].
  intros ->. simpl in Hp. destruct (ascii_dec sep sep); [|congruence].
  now destruct s.
Qed.

Lemma Split_no_sep (s : string) (sep : ascii) :
  Contains s (String sep "") = false -> Split s sep = [s].
Proof.
  induction s as [|c s IH]; intros Hs; [reflexivity|].
  apply Contains_cons_sep in Hs. destruct Hs as [Hc Hs].
  simpl. apply Ascii.eqb_neq in Hc. rewrite Hc, (IH Hs). reflexivity.
Qed.

Lemma Split_append_sep (s rest : string) (sep : ascii) :
  Contains s (String sep "") = false ->
  Split (s ++ String sep rest) sep = s :: Split rest sep.
Proof.
  induction s as [|c s IH]; intros Hs.
  - simpl. now rewrite Ascii.eqb_refl.
  - apply Contains_cons_sep in Hs. destruct Hs as [Hc Hs].
    simpl. apply Ascii.eqb_neq in Hc. rewrite Hc, (IH Hs). reflexivity.
Qed.

Lemma Split_Join (parts : list string) (sep : ascii) :
  parts <> [] ->
  Forall (fun piece => Contains piece (String sep "") = false) parts ->
  Split (Join parts (String sep "")) sep = parts.
Proof.
  unfold Join. intros Hne Hall.
  induction Hall as [|p parts Hp Hparts IH]; [contradiction|].
  destruct parts as [|q parts].
  - simpl. now apply Split_no_sep.
  - change (String.concat (String sep "") (p :: q :: parts))
      with (p ++ String sep (String.concat (String sep "") (q :: parts))).
    rewrite (Split_append_sep _ _ _ Hp).
    f_equal. apply IH. discriminate.
Qed.

(** * More facts about [RunDeploy] *)

Module DeployMore.
Import Deploy DeployFacts.

Section Facts.
Context `{Host}.
Variable sdk : SdkStatus.

(** A file step whose destination does not render stops the plan with the
    rendering error before [RenderTemplate] is called; one whose source
    does not render into the destination stops the plan with the error of
    [RenderTemplate].  No later step runs in either case. *)
Theorem file_step_errors_abort (data : Data) (step : Step)
  (post : list Step) (w : World) :
  Mkdir step = "" -> Exec step = "" -> Source (File step) <> "" ->
  (forall out e,
      InterpretString (Destination (File step)) data = (out, Some e) ->
      runSteps sdk data (step :: post) w
      = (emit (Fprintf (marker step)) w, Some e)) /\
  (forall outFile fs' e,
      InterpretString (Destination (File step)) data = (outFile, None) ->
      RenderTemplate (Dir sdk ++ "/" ++ Source (File step)) outFile data
                     (files w) = (fs', Some e) ->
      runSteps sdk data (step :: post) w
      = ({| files := fs';
            trace := (trace w
                      ++ [Fprintf (marker step);
                          EvRenderTemplate
                            (Dir sdk ++ "/" ++ Source (File step))
                            outFile])%list |},
         Some e)).
Proof.
  intros Hm He Hs. split.
  - intros out e Hr. simpl. unfold runStep.
    rewrite Hm, He, (nonempty_test _ Hs). simpl. rewrite Hr. reflexivity.
  - intros outFile fs' e Hr Hrender. simpl. unfold runStep.
    rewrite Hm, He, (nonempty_test _ Hs). simpl. rewrite Hr.
    rewrite perform_eq. simpl in *. rewrite Hrender. simpl.
    rewrite <- app_assoc. reflexivity.
Qed.

(** An exec step whose program is found but whose process fails (it
    cannot be started or exits with a status other than zero) stops the
    plan with the error of [cmd.Run()]; what the process did to the file
    system stays, and no later step runs. *)
Theorem exec_step_failure_aborts (data : Data) (step : Step)
  (post : list Step) (w : World) (path : string) (fs' : FS) (e : error) :
  Mkdir step = "" -> Exec step <> "" ->
  LookPath (hd "" (Split (Exec step) " ")) (files w) = (path, None) ->
  cmd_Run (command path (Split (Exec step) " ")) (files w) = (fs', Some e) ->
  runSteps sdk data (step :: post) w
  = ({| files := fs';
        trace := (trace w
                  ++ [Fprintf (marker step);
                      EvLookPath (hd "" (Split (Exec step) " "));
                      EvRun (command path (Split (Exec step) " "))])%list |},
     Some e).
Proof.
  intros Hm He Hl Hrun. simpl. unfold runStep.
  rewrite Hm, (nonempty_test _ He). simpl. rewrite Split_length, Hl.
  rewrite perform_eq. simpl. fold (command path (Split (Exec step) " ")).
  rewrite Hrun. simpl. rewrite <- !app_assoc. reflexivity.
Qed.

Lemma runSteps_events (data : Data) (steps : list Step) :
  forall w ev,
    In ev (trace (fst (runSteps sdk data steps w))) ->
    In ev (trace w) \/ (exists text, ev = Fprintf text) \/
    exists step, In step steps /\ event_branch ev = Some (selected step).
Proof.
  induction steps as [|step steps IH]; intros w ev Hin; simpl in Hin.
  - now left.
  - destruct (runStep_trace sdk data step w) as (evs & Htrace & Hevs).
    assert (Hstep : forall ev',
               In ev' (trace (fst (runStep sdk data step w))) ->
               In ev' (trace w) \/ (exists text, ev' = Fprintf text) \/
               exists s, In s (step :: steps)
                         /\ event_branch ev' = Some (selected s)).
    { intros ev' Hin'. rewrite Htrace in Hin'.
      apply in_app_or in Hin'. destruct Hin' as [Hin'|[<-|Hin']].
      - now left.
      - right. left. now eexists.
      - right. right. exists step. split; [now left|].
        rewrite Forall_forall in Hevs. now apply Hevs. }
    destruct (runStep sdk data step w) as [w1 [err|]]; simpl in *.
    + now apply Hstep.
    + destruct (IH _ _ Hin) as [Hold|[Htext|(s & Hs & Hb)]].
      * now apply Hstep.
      * right. now left.
      * right. right. exists s. split; [now right|exact Hb].
Qed.

(** Whatever a run of [RunDeploy] calls from the outside belongs to the
    payload selected for some step of the plan: every new entry of the
    trace is a line written to [w] or an operation of the selected
    payload of a step.  In particular a plan in which no step selects
    exec never looks up or runs a program. *)
Theorem RunDeploy_calls_only_selected (w : World) (ev : Event) :
  In ev (trace (fst (RunDeploy sdk w))) ->
  In ev (trace w) \/ (exists text, ev = Fprintf text) \/
  exists step,
    In step (Steps (Spec (fst (LoadSDKInit (Dir sdk ++ "deploy.yaml")))))
    /\ event_branch ev = Some (selected step).
Proof.
  unfold RunDeploy.
  destruct (LoadSDKInit (Dir sdk ++ "deploy.yaml")) as [plan [err|]];
    simpl; intros Hin.
  - now left.
  - destruct (runSteps_events _ _ _ _ Hin) as [Hold|[Htext|Hstep]].
    + unfold emit in Hold. simpl in Hold. apply in_app_or in Hold.
      destruct Hold as [Hold|[<-|[]]]; [now left|right; left; now eexists].
    + right. now left.
    + right. now right.
Qed.

End Facts.

(** [RunDeploy] renders every template against the empty context: two
    hosts over one file system that agree on the empty context (and on
    the plan, the search path, the environment and the processes) give
    the same run, whatever their template engines do on other
    contexts. *)
Theorem RunDeploy_uses_empty_context {F : FileSystem} (h1 h2 : Host)
  (sdk : SdkStatus) (w : World) :
  (forall s, InterpretString (Host := h1) s [] = InterpretString (Host := h2) s []) ->
  (forall source dest fs,
      RenderTemplate (Host := h1) source dest [] fs
      = RenderTemplate (Host := h2) source dest [] fs) ->
  (forall file, LoadSDKInit (Host := h1) file = LoadSDKInit (Host := h2) file) ->
  (forall file fs, LookPath (Host := h1) file fs = LookPath (Host := h2) file fs) ->
  os_Environ (Host := h1) = os_Environ (Host := h2) ->
  (forall cmd fs, cmd_Run (Host := h1) cmd fs = cmd_Run (Host := h2) cmd fs) ->
  RunDeploy (H0 := h1) sdk w = RunDeploy (H0 := h2) sdk w.
Proof.
  intros Hi Hr Hload Hlook Henv Hrun.
  assert (Hstep : forall step w',
             runStep (H0 := h1) sdk [] step w'
             = runStep (H0 := h2) sdk [] step w').
  { intros step w'. unfold runStep, perform.
    rewrite !Hi, Henv. simpl. rewrite Hlook.
    destruct (negb (Mkdir step =? "")); [reflexivity|].
    destruct (negb (Exec step =? "")).
    - destruct (LookPath _ _) as [path [e|]]; [reflexivity|].
      now rewrite Hrun.
    - destruct (negb (Source (File step) =? "")); [|reflexivity].
      destruct (InterpretString _ _) as [out [e|]]; [reflexivity|].
      now rewrite Hr. }
  assert (Hsteps : forall steps w',
             runSteps (H0 := h1) sdk [] steps w'
             = runSteps (H0 := h2) sdk [] steps w').
  { induction steps as [|step steps IH]; intros w'; simpl; [reflexivity|].
    rewrite Hstep. destruct (runStep _ _ _ _) as [w1 [e|]]; [reflexivity|].
    apply IH. }
  unfold RunDeploy. rewrite Hload.
  destruct (LoadSDKInit _) as [plan [e|]]; [reflexivity|apply Hsteps].
Qed.

(** *** The statements on the small host *)

Import MemFS MoreFixtures.

Lemma file_step_errors_abort_witness :
  runSteps (H0 := host []) sdk []
    [fileStep "render" "main.tmpl" "out/{{name}}"; mkdirStep "later" "late"]
    start
  = (emit (Fprintf (marker (fileStep "render" "main.tmpl" "out/{{name}}")))
          start,
     Some (TemplateError "no entry for key name")).
Proof.
  pose proof (file_step_errors_abort (H0 := host []) sdk []
                (fileStep "render" "main.tmpl" "out/{{name}}")
                [mkdirStep "later" "late"] start eq_refl eq_refl) as Hw.
  destruct Hw as [Hfirst _]; [discriminate|].
  exact (Hfirst "" (TemplateError "no entry for key name") eq_refl).
Defined.

Lemma exec_step_failure_aborts_witness :
  snd (runSteps (H0 := host []) sdk []
         [execStep "check" "false"; mkdirStep "later" "late"] start)
  = Some (ExitError "exit status 1").
Proof.
  rewrite (exec_step_failure_aborts (H0 := host []) sdk []
             (execStep "check" "false") [mkdirStep "later" "late"] start
             "/bin/false" (files start) (ExitError "exit status 1") eq_refl).
  - reflexivity.
  - discriminate.
  - reflexivity.
  - reflexivity.
Defined.

Lemma RunDeploy_calls_only_selected_witness :
  In (EvMkdirAll "build/out") (trace start) \/
  (exists text, EvMkdirAll "build/out" = Fprintf text) \/
  exists step,
    In step (Steps (Spec (fst (LoadSDKInit (Host := host mixedSteps)
                                 (Dir sdk ++ "deploy.yaml")))))
    /\ event_branch (EvMkdirAll "build/out") = Some (selected step).
Proof.
  apply (RunDeploy_calls_only_selected (H0 := host mixedSteps) sdk start).
  vm_compute. tauto.
Defined.

Lemma RunDeploy_uses_empty_context_witness :
  RunDeploy (H0 := host mixedSteps) sdk start
  = RunDeploy (H0 := strictHost mixedSteps) sdk start.
Proof.
  apply (RunDeploy_uses_empty_context (host mixedSteps)
           (strictHost mixedSteps) sdk start); reflexivity.
Defined.

End DeployMore.

(** * More facts about the runner and its loops *)

Module E2EMore.
Import E2E E2EWords.

Lemma kubectlCalls_app (t u : list Event) :
  kubectlCalls (t ++ u) = (kubectlCalls t + kubectlCalls u)%nat.
Proof.
  induction t as [|ev t IH]; simpl; [reflexivity|].
  destruct ev; simpl; now rewrite IH.
Qed.

Lemma sleeps_app (t u : list Event) :
  sleeps (t ++ u) = (sleeps t ++ sleeps u)%list.
Proof.
  induction t as [|ev t IH]; simpl; [reflexivity|].
  destruct ev; simpl; now rewrite IH.
Qed.

Lemma repeat_snoc {A} (x : A) (n : nat) :
  (repeat x n ++ [x])%list = repeat x (S n).
Proof. induction n as [|n IH]; simpl; [reflexivity|now rewrite IH]. Qed.

Section Facts.
Context `{Cluster}.

Lemma effort_round (st st' : State) (a : list string) (opts : runOpts)
  (format : string) (l : list Arg) (k j : nat) :
  effort {| started := S (started st);
            trace := (((trace st ++ [EvKubectl a opts])
                       ++ [EvDebugf format l])
                      ++ [EvSleep RetrySleepDuration])%list |} st' k j ->
  effort st st' (S k) (S j).
Proof.
  unfold effort. cbn [started trace]. intros (Hs & Hk & Hz).
  rewrite Hs, Hk, Hz, !kubectlCalls_app, !sleeps_app. simpl.
  repeat split; try lia.
  rewrite !app_nil_r, <- app_assoc. reflexivity.
Qed.

Lemma effort_call (st : State) (a : list string) (opts : runOpts) :
  effort st {| started := S (started st);
               trace := (trace st ++ [EvKubectl a opts])%list |} 1 0.
Proof.
  unfold effort. cbn [started trace].
  rewrite kubectlCalls_app, sleeps_app. simpl.
  repeat split; lia.
Qed.

Lemma effort_none (st : State) : effort st st 0 0.
Proof.
  unfold effort. simpl. rewrite app_nil_r. repeat split; lia.
Qed.

Lemma createNamespace_loop_effort (namespace : string) (maxRetries : Z)
  (n : nat) :
  forall retries out0 err0 st,
  exists k j,
    (j <= k <= n)%nat /\
    effort st (snd (createNamespace_loop n retries out0 err0 namespace
                      maxRetries st)) k j.
Proof.
  induction n as [|n IH]; intros retries out0 err0 st.
  - exists O, O. split; [lia|apply effort_none].
  - cbn [createNamespace_loop]. unfold bind at 1.
    unfold kubectl_RunWithOpts at 1.
    destruct (kubectl (started st) _ _) as [[out [e|]]|msg].
    + unfold bind, Debugf, Sleep, record. cbn [started trace].
      match goal with
      | |- context [createNamespace_loop n ?r ?o ?e namespace maxRetries ?s] =>
          destruct (IH r o e s) as (k & j & Hle & Heff)
      end.
      exists (S k), (S j). split; [lia|].
      eapply effort_round. exact Heff.
    + exists 1%nat, O. split; [lia|]. apply effort_call.
    + exists 1%nat, O. split; [lia|]. apply effort_call.
Qed.

(** Whatever the cluster answers, [createNamespace] calls kubectl at most
    [maxRetries] times and pauses at most once per call, each pause
    lasting [RetrySleepDuration]. *)
Theorem createNamespace_effort_bounded (namespace : string) (maxRetries : Z)
  (st : State) :
  exists k j,
    (j <= k <= Z.to_nat maxRetries)%nat /\
    effort st (snd (createNamespace namespace maxRetries st)) k j.
Proof.
  unfold createNamespace, createNamespace_from. rewrite Z.sub_0_r.
  apply createNamespace_loop_effort.
Qed.

Lemma checkNamespace_loop_effort (namespace : string) (created : bool)
  (maxRetries : Z) (n : nat) :
  forall retries st,
  exists k j,
    (j <= k <= n)%nat /\
    effort st (snd (checkNamespace_loop n retries namespace created
                      maxRetries st)) k j.
Proof.
  induction n as [|n IH]; intros retries st.
  - exists O, O. split; [lia|apply effort_none].
  - cbn [checkNamespace_loop]. unfold bind at 1.
    unfold kubectl_RunWithOpts at 1.
    destruct (kubectl (started st) _ _) as [[out e]|msg].
    + cbn [fst].
      destruct (negb created && negb (Contains out namespace));
        [exists 1%nat, O; split; [lia|apply effort_call]|].
      destruct (created && Contains out namespace);
        [exists 1%nat, O; split; [lia|apply effort_call]|].
      unfold bind, Debugf, Sleep, record. cbn [started trace].
      match goal with
      | |- context [checkNamespace_loop n ?r namespace created maxRetries ?s] =>
          destruct (IH r s) as (k & j & Hle & Heff)
      end.
      exists (S k), (S j). split; [lia|].
      eapply effort_round. exact Heff.
    + exists 1%nat, O. split; [lia|]. apply effort_call.
Qed.

(** Whatever the cluster answers and whatever budget is passed,
    [checkNamespace] calls kubectl at most [MaxRetries] (10) times and
    pauses at most once per call: it is over after at most 50 seconds of
    pauses. *)
Theorem checkNamespace_effort_bounded (namespace : string) (created : bool)
  (maxRetries : Z) (st : State) :
  exists k j,
    (j <= k <= 10)%nat /\
    effort st (snd (checkNamespace namespace created maxRetries st)) k j.
Proof.
  unfold checkNamespace, checkNamespace_from.
  apply checkNamespace_loop_effort.
Qed.

(** Without a budget ([maxRetries <= 0]) [createNamespace] makes no
    attempt and still reports success: the empty output and a nil
    error. *)
Theorem createNamespace_without_budget (namespace : string) (maxRetries : Z)
  (st : State) :
  (maxRetries <= 0)%Z ->
  createNamespace namespace maxRetries st = (Returned ("", None), st).
Proof.
  intros Hle. unfold createNamespace, createNamespace_from.
  replace (Z.to_nat (maxRetries - 0)) with O by lia. reflexivity.
Qed.

Lemma createNamespace_loop_last_answer (namespace : string) (maxRetries : Z)
  (n : nat) :
  forall retries out0 err0 st r st',
    createNamespace_loop n retries out0 err0 namespace maxRetries st
    = (Returned r, st') ->
    match n with
    | O => r = (out0, err0) /\ st' = st
    | S _ =>
        (started st < started st')%nat /\
        kubectl (pred (started st')) (createArgs namespace) allowError
        = Returned r
    end.
Proof.
  induction n as [|n IH]; intros retries out0 err0 st r st' Hrun.
  - simpl in Hrun. unfold ret in Hrun. now inversion Hrun.
  - cbn [createNamespace_loop] in Hrun. unfold bind at 1 in Hrun.
    unfold kubectl_RunWithOpts at 1 in Hrun.
    fold (createArgs namespace) in Hrun. fold allowError in Hrun.
    destruct (kubectl (started st) (createArgs namespace) allowError)
      as [[out [e|]]|msg] eqn:Hk.
    + unfold bind, Debugf, Sleep, record in Hrun. cbn [started trace] in Hrun.
      apply IH in Hrun. destruct n as [|n].
      * destruct Hrun as [-> ->]. cbn [started pred]. split; [lia|exact Hk].
      * destruct Hrun as [Hlt Hlast]. cbn [started] in Hlt.
        split; [lia|exact Hlast].
    + unfold ret in Hrun. inversion Hrun; subst. cbn [started pred].
      split; [lia|exact Hk].
    + discriminate.
Qed.

(** What [createNamespace] returns is the answer of the last call of
    kubectl it made, output and error alike; it returns without a call
    only when it has no budget, and then returns the empty output and a
    nil error. *)
Theorem createNamespace_returns_last_answer (namespace : string)
  (maxRetries : Z) (st st' : State) (r : string * option error) :
  createNamespace namespace maxRetries st = (Returned r, st') ->
  (r = ("", None) /\ st' = st /\ (maxRetries <= 0)%Z) \/
  ((started st < started st')%nat /\
   kubectl (pred (started st')) (createArgs namespace) allowError
   = Returned r).
Proof.
  intros Hrun. unfold createNamespace, createNamespace_from in Hrun.
  apply createNamespace_loop_last_answer in Hrun.
  destruct (Z.to_nat (maxRetries - 0)) as [|n] eqn:Hn.
  - left. destruct Hrun as [-> ->]. repeat split. lia.
  - right. exact Hrun.
Qed.

(** The description of a command can be taken apart again: when neither
    the program nor an argument holds a space, cutting the description at
    its spaces gives the program and the arguments back.  Without
    arguments the description ends in a space, and the cut gives the
    program and one empty word. *)
Theorem cmdCLIDesc_tokens (cli : string) (a : list string) :
  Contains cli " " = false ->
  Forall (fun word => Contains word " " = false) a ->
  Split (cmdCLIDesc cli a) " "
  = cli :: match a with [] => [""] | _ => a end.
Proof.
  intros Hcli Ha. unfold cmdCLIDesc.
  change (cli ++ " " ++ Join a " ") with (cli ++ String " " (Join a " ")).
  rewrite (Split_append_sep _ _ _ Hcli). f_equal.
  destruct a as [|x a]; [reflexivity|].
  apply Split_Join; [discriminate|exact Ha].
Qed.

End Facts.
(** *** The statements on small clusters *)

Lemma createNamespace_without_budget_witness :
  createNamespace (H := steady ("", Some refused)) "kn-test-1" 0 fresh
  = (Returned ("", None), fresh).
Proof.
  apply (createNamespace_without_budget (H := steady ("", Some refused))
           "kn-test-1" 0 fresh).
  lia.
Defined.

Lemma createNamespace_returns_last_answer_witness :
  kubectl (Cluster := flaky 2 "" "" None) 2 (createArgs "kn-test-1")
          allowError
  = Returned ("namespace/kn-test-1 created", None).
Proof.
  destruct (createNamespace_returns_last_answer (H := flaky 2 "" "" None)
              "kn-test-1" 10 fresh
              (snd (createNamespace (H := flaky 2 "" "" None)
                      "kn-test-1" 10 fresh))
              ("namespace/kn-test-1 created", None) eq_refl)
    as [(_ & _ & Hle)|(_ & Hlast)].
  - lia.
  - exact Hlast.
Defined.

Lemma cmdCLIDesc_tokens_witness :
  Split (cmdCLIDesc "kubectl" ["get"; "namespace"]) " "
  = ["kubectl"; "get"; "namespace"].
Proof.
  apply (cmdCLIDesc_tokens "kubectl" ["get"; "namespace"]).
  - reflexivity.
  - repeat constructor.
Defined.

End E2EMore.

(** * Facts about the life cycle of a test *)

Module LifecycleFacts.
Import Lifecycle.

Lemma Itoa_injective (a b : Z) : Itoa a = Itoa b -> a = b.
Proof.
  unfold Itoa. intros Heq.
  assert (Hint : Some (Z.to_int a) = Some (Z.to_int b))
    by (rewrite <- !NilEmpty.isi; now rewrite Heq).
  inversion Hint as [Hab].
  rewrite <- (DecimalZ.of_to a), <- (DecimalZ.of_to b). now rewrite Hab.
Qed.

Lemma append_cancel (base s t : string) : base ++ s = base ++ t -> s = t.
Proof.
  induction base as [|c base IH]; simpl; intros Heq; [exact Heq|].
  inversion Heq. now apply IH.
Qed.

Lemma wrap_small (z : Z) : (minInt <= z <= maxInt)%Z -> wrap z = z.
Proof.
  unfold wrap, minInt, maxInt. intros Hz.
  rewrite Z.mod_small; lia.
Qed.

Lemma countFrom_In (n : nat) :
  forall first z, In z (countFrom first n) ->
                  (first <= z < first + Z.of_nat n)%Z.
Proof.
  induction n as [|n IH]; intros first z Hin; simpl in Hin; [contradiction|].
  destruct Hin as [<-|Hin]; [lia|]. apply IH in Hin. lia.
Qed.

Lemma countFrom_NoDup (n : nat) : forall first, NoDup (countFrom first n).
Proof.
  induction n as [|n IH]; intros first; simpl; constructor; [|apply IH].
  intros Hin. apply countFrom_In in Hin. lia.
Qed.

Lemma wrap_range (z : Z) : (minInt <= wrap z <= maxInt)%Z.
Proof.
  unfold wrap, minInt, maxInt.
  pose proof (Z.mod_pos_bound (z + 2 ^ 63) (2 ^ 64) ltac:(lia)). lia.
Qed.

Lemma countFrom_wrap (first : Z) (n : nat) :
  (minInt <= first)%Z -> (first + 1 + Z.of_nat n <= maxInt + 1)%Z ->
  (minInt <= wrap (first + 1))%Z /\
  (wrap (first + 1) + Z.of_nat n <= maxInt + 1)%Z /\
  countFrom (wrap (first + 1)) n = countFrom (first + 1) n.
Proof.
  intros Hlo Hhi. pose proof (wrap_range (first + 1)) as Hr.
  destruct n as [|n].
  - cbn [countFrom]. repeat split; lia.
  - rewrite wrap_small by lia. repeat split; lia.
Qed.

Lemma callAll_ordinals (calls : list CounterCall) :
  forall ts,
    (minInt <= namespaceCount (counters ts))%Z ->
    (namespaceCount (counters ts) + Z.of_nat (namespaceCalls calls)
     <= maxInt + 1)%Z ->
    exists rs ts',
      callAll calls ts = (Finished rs, ts') /\
      run ts' = run ts /\
      ordinals rs
      = countFrom (namespaceCount (counters ts)) (namespaceCalls calls).
Proof.
  induction calls as [|c calls IH]; intros ts Hlo Hhi.
  - exists [], ts. repeat split.
  - destruct c as [|base]; cbn [callAll call namespaceCalls] in *.
    + destruct (countFrom_wrap (namespaceCount (counters ts))
                  (namespaceCalls calls) Hlo ltac:(lia)) as (Hlo' & Hhi' & Hc).
      destruct (IH {| run := run ts;
                      counters :=
                        {| namespaceCount :=
                             wrap (namespaceCount (counters ts) + 1);
                           serviceCount := serviceCount (counters ts) |} |}
                   Hlo' Hhi') as (rs & ts' & Hrun & Hkeep & Hord).
      exists (Ordinal (namespaceCount (counters ts)) :: rs), ts'.
      unfold bind, getNamespaceCountAndIncrement, ret. rewrite Hrun.
      repeat split; [exact Hkeep|]. simpl. rewrite Hord.
      cbn [counters namespaceCount]. now rewrite Hc.
    + destruct (IH {| run := run ts;
                      counters :=
                        {| namespaceCount := namespaceCount (counters ts);
                           serviceCount :=
                             wrap (serviceCount (counters ts) + 1) |} |}
                   Hlo Hhi) as (rs & ts' & Hrun & Hkeep & Hord).
      exists (ServiceName (base ++ Itoa (serviceCount (counters ts))) :: rs), ts'.
      unfold bind, getServiceNameAndIncrement, ret. rewrite Hrun.
      repeat split; [exact Hkeep|]. simpl. exact Hord.
Qed.

Lemma callAll_serviceNames (calls : list CounterCall) :
  forall ts,
    (minInt <= serviceCount (counters ts))%Z ->
    (serviceCount (counters ts) + Z.of_nat (serviceCalls calls)
     <= maxInt + 1)%Z ->
    exists rs ts',
      callAll calls ts = (Finished rs, ts') /\
      serviceNames rs
      = map (fun bi => fst bi ++ Itoa (snd bi))
            (combine (bases calls)
                     (countFrom (serviceCount (counters ts))
                                (serviceCalls calls))).
Proof.
  induction calls as [|c calls IH]; intros ts Hlo Hhi.
  - exists [], ts. repeat split.
  - destruct c as [|base]; cbn [callAll call serviceCalls bases] in *.
    + destruct (IH {| run := run ts;
                      counters :=
                        {| namespaceCount :=
                             wrap (namespaceCount (counters ts) + 1);
                           serviceCount := serviceCount (counters ts) |} |}
                   Hlo Hhi) as (rs & ts' & Hrun & Hnames).
      exists (Ordinal (namespaceCount (counters ts)) :: rs), ts'.
      unfold bind, getNamespaceCountAndIncrement, ret. rewrite Hrun.
      split; [reflexivity|]. simpl. exact Hnames.
    + destruct (countFrom_wrap (serviceCount (counters ts))
                  (serviceCalls calls) Hlo ltac:(lia)) as (Hlo' & Hhi' & Hc).
      destruct (IH {| run := run ts;
                      counters :=
                        {| namespaceCount := namespaceCount (counters ts);
                           serviceCount :=
                             wrap (serviceCount (counters ts) + 1) |} |}
                   Hlo' Hhi') as (rs & ts' & Hrun & Hnames).
      exists (ServiceName (base ++ Itoa (serviceCount (counters ts))) :: rs), ts'.
      unfold bind, getServiceNameAndIncrement, ret. rewrite Hrun.
      split; [reflexivity|]. simpl. rewrite Hnames.
      cbn [counters serviceCount]. now rewrite Hc.
Qed.

(** The namespace ordinals handed out are gapless and pairwise distinct:
    however calls of the two counter functions follow one another, the
    calls of [getNamespaceCountAndIncrement] return the value of the
    counter at the start, the next one, and so on, as long as the counter
    does not pass the largest [int]; the state of the runner is not
    touched. *)
Theorem namespace_ordinals_gapless (calls : list CounterCall)
  (ts : TestState) :
  (minInt <= namespaceCount (counters ts))%Z ->
  (namespaceCount (counters ts) + Z.of_nat (namespaceCalls calls)
   <= maxInt + 1)%Z ->
  exists rs ts',
    callAll calls ts = (Finished rs, ts') /\
    run ts' = run ts /\
    ordinals rs
    = countFrom (namespaceCount (counters ts)) (namespaceCalls calls) /\
    NoDup (ordinals rs).
Proof.
  intros Hlo Hhi.
  destruct (callAll_ordinals calls ts Hlo Hhi) as (rs & ts' & Hrun & Hk & Ho).
  exists rs, ts'. repeat split; try assumption.
  rewrite Ho. apply countFrom_NoDup.
Qed.

Lemma bases_same (base : string) (calls : list CounterCall) :
  Forall (fun c => c = NextNamespace \/ c = NextServiceName base) calls ->
  forall first,
    map (fun bi => fst bi ++ Itoa (snd bi))
        (combine (bases calls) (countFrom first (serviceCalls calls)))
    = map (fun i => base ++ Itoa i) (countFrom first (serviceCalls calls)).
Proof.
  induction 1 as [|c calls Hc _ IH]; intros first; [reflexivity|].
  destruct Hc as [->| ->]; simpl; [apply IH|]. now rewrite IH.
Qed.

Lemma names_NoDup (base : string) (l : list Z) :
  NoDup l -> NoDup (map (fun i => base ++ Itoa i) l).
Proof.
  induction 1 as [|z l Hz _ IH]; simpl; constructor; [|exact IH].
  intros Hin. apply in_map_iff in Hin. destruct Hin as (y & Heq & Hy).
  apply append_cancel, Itoa_injective in Heq. now subst.
Qed.

(** The service names made from one base are pairwise distinct: however
    calls of the two counter functions follow one another, the names
    returned for [base] are [base] followed by the decimal numerals of
    consecutive values of the counter, as long as the counter does not
    pass the largest [int]. *)
Theorem service_names_distinct (base : string) (calls : list CounterCall)
  (ts : TestState) :
  Forall (fun c => c = NextNamespace \/ c = NextServiceName base) calls ->
  (minInt <= serviceCount (counters ts))%Z ->
  (serviceCount (counters ts) + Z.of_nat (serviceCalls calls)
   <= maxInt + 1)%Z ->
  exists rs ts',
    callAll calls ts = (Finished rs, ts') /\
    serviceNames rs
    = map (fun i => base ++ Itoa i)
          (countFrom (serviceCount (counters ts)) (serviceCalls calls)) /\
    NoDup (serviceNames rs).
Proof.
  intros Hbase Hlo Hhi.
  destruct (callAll_serviceNames calls ts Hlo Hhi) as (rs & ts' & Hrun & Hn).
  rewrite (bases_same base calls Hbase) in Hn.
  exists rs, ts'. repeat split; try assumption.
  rewrite Hn. apply names_NoDup, countFrom_NoDup.
Qed.

Section Tests.
Context `{E2E.Cluster} `{Regexp}.

(** The poller never returns false, so the two waits never fail their
    test with a time-out: a wait returns, unless a call of kubectl ends
    the run. *)
Theorem waits_never_time_out (namespace : string) (ts : TestState) :
  (fst (WaitForNamespaceCreated namespace ts) = Finished tt \/
   exists msg, fst (WaitForNamespaceCreated namespace ts) = RunEnded msg) /\
  (fst (WaitForNamespaceDeleted namespace ts) = Finished tt \/
   exists msg, fst (WaitForNamespaceDeleted namespace ts) = RunEnded msg).
Proof.
  split.
  - unfold WaitForNamespaceCreated, bind, lift.
    destruct (E2E.checkNamespace namespace true E2E.MaxRetries (run ts))
      as [r st'] eqn:Hc.
    destruct (E2EFacts.checkNamespace_loop_true_or_exit
                namespace true E2E.MaxRetries _ _ _ r
                (f_equal fst Hc)) as [->|[msg ->]]; simpl.
    + now left.
    + right. now exists msg.
  - unfold WaitForNamespaceDeleted, bind, lift.
    destruct (E2E.checkNamespace namespace false E2E.MaxRetries (run ts))
      as [r st'] eqn:Hc.
    destruct (E2EFacts.checkNamespace_loop_true_or_exit
                namespace false E2E.MaxRetries _ _ _ r
                (f_equal fst Hc)) as [->|[msg ->]]; simpl.
    + now left.
    + right. now exists msg.
Qed.

Lemma WaitForNamespaceCreated_finished (namespace : string)
  (ts ts' : TestState) (u : unit) :
  WaitForNamespaceCreated namespace ts = (Finished u, ts') ->
  counters ts' = counters ts /\
  (E2E.started (run ts) <= E2E.started (run ts'))%nat.
Proof.
  unfold WaitForNamespaceCreated, bind, lift.
  pose proof (E2EMore.checkNamespace_loop_effort namespace true
                E2E.MaxRetries 10 0%Z (run ts)) as (k & j & _ & Hs & _).
  change (E2E.checkNamespace_loop 10 0 namespace true E2E.MaxRetries (run ts))
    with (E2E.checkNamespace namespace true E2E.MaxRetries (run ts)) in Hs.
  destruct (E2E.checkNamespace namespace true E2E.MaxRetries (run ts))
    as [[b|msg] st']; [|discriminate].
  simpl in Hs. destruct b; simpl; intros Hrun; inversion Hrun; subst.
  simpl. split; [reflexivity|lia].
Qed.

Lemma CreateTestNamespace_inv (test test' : e2eTest) (namespace : string)
  (ts ts' : TestState) :
  CreateTestNamespace test namespace ts = (Finished test', ts') ->
  test' = {| env := env test; kn := kn test;
             createNamespaceOnSetup := createNamespaceOnSetup test;
             namespaceCreated := true |} /\
  counters ts' = counters ts /\
  (E2E.started (run ts) < E2E.started (run ts'))%nat /\
  exists out,
    E2E.kubectl (pred (E2E.started (run ts'))) (E2E.createArgs namespace)
                E2E.allowError = E2E.Returned (out, None) /\
    MatchString ("namespace?.+" ++ namespace ++ ".+created") out
    = (true, None).
Proof.
  unfold CreateTestNamespace, bind, lift.
  destruct (E2E.createNamespace namespace E2E.MaxRetries (run ts))
    as [[[out [e|]]|msg] st1] eqn:Hc; try discriminate.
  cbn [run counters]. unfold ret at 1. unfold matchRegexp.
  destruct (MatchString ("namespace?.+" ++ namespace ++ ".+created") out)
    as [matched [e|]] eqn:Hm; [discriminate|].
  destruct matched; simpl; [|discriminate].
  intros Hrun. inversion Hrun; subst. cbn [run counters].
  unfold E2E.createNamespace, E2E.createNamespace_from in Hc.
  apply E2EMore.createNamespace_loop_last_answer in Hc.
  change (Z.to_nat (E2E.MaxRetries - 0)) with 10%nat in Hc.
  destruct Hc as [Hlt Hlast].
  repeat split; [exact Hlt|]. exists out. split; [exact Hlast|exact Hm].
Qed.

(** When [CreateTestNamespace] returns, the namespace is marked as
    created and nothing else of the test value has changed; the last
    create call returned a nil error and its output matched the pattern
    for the namespace. *)
Theorem CreateTestNamespace_finished (test test' : e2eTest)
  (namespace : string) (ts ts' : TestState) :
  CreateTestNamespace test namespace ts = (Finished test', ts') ->
  namespaceCreated test' = true /\
  env test' = env test /\ kn test' = kn test /\
  createNamespaceOnSetup test' = createNamespaceOnSetup test /\
  exists out,
    E2E.kubectl (pred (E2E.started (run ts'))) (E2E.createArgs namespace)
                E2E.allowError = E2E.Returned (out, None) /\
    MatchString ("namespace?.+" ++ namespace ++ ".+created") out
    = (true, None).
Proof.
  intros Hrun. apply CreateTestNamespace_inv in Hrun.
  destruct Hrun as (-> & _ & _ & Hout). repeat split. exact Hout.
Qed.

(** When every one of the [MaxRetries] create calls fails,
    [CreateTestNamespace] ends the whole run through [logger.Fatalf],
    with a message that holds the error of the last call. *)
Theorem CreateTestNamespace_gives_up (test : e2eTest) (namespace : string)
  (ts : TestState) (outs : nat -> string) (errs : nat -> error) :
  (forall i, (i < 10)%nat ->
             E2E.kubectl (E2E.started (run ts) + i)
                         (E2E.createArgs namespace) E2E.allowError
             = E2E.Returned (outs i, Some (errs i))) ->
  exists msg,
    fst (CreateTestNamespace test namespace ts) = RunEnded msg /\
    Contains msg (Error (errs 9%nat)) = true.
Proof.
  intros Hfail. unfold CreateTestNamespace, bind, lift.
  unfold E2E.createNamespace, E2E.createNamespace_from.
  change (Z.to_nat (E2E.MaxRetries - 0)) with 10%nat.
  rewrite (E2EFacts.createNamespace_loop_gives_up namespace E2E.MaxRetries
             10 0%Z "" None (run ts) outs errs Hfail).
  simpl. eexists. split; [reflexivity|].
  exact (Contains_append "Could not create namespace with error "
           (Error (errs 9%nat)) _).
Qed.

Lemma Setup_inv (test test' : e2eTest) (ts ts' : TestState) :
  Setup test ts = (Finished test', ts') ->
  env test'
  = {| Namespace := Namespace (env test)
                    ++ Itoa (namespaceCount (counters ts)) |} /\
  kn test'
  = {| namespace := Namespace (env test)
                    ++ Itoa (namespaceCount (counters ts)) |} /\
  createNamespaceOnSetup test' = createNamespaceOnSetup test /\
  namespaceCreated test'
  = (createNamespaceOnSetup test || namespaceCreated test) /\
  counters ts'
  = {| namespaceCount := wrap (namespaceCount (counters ts) + 1);
       serviceCount := serviceCount (counters ts) |} /\
  (createNamespaceOnSetup test = false -> run ts' = run ts).
Proof.
  unfold Setup. unfold bind at 1. unfold getNamespaceCountAndIncrement.
  cbn [createNamespaceOnSetup env Namespace].
  destruct (createNamespaceOnSetup test) eqn:Hflag.
  - unfold bind at 1.
    match goal with
    | |- context [CreateTestNamespace ?t ?n ?s] =>
        destruct (CreateTestNamespace t n s) as [[t1| |] ts1] eqn:Hc;
          try discriminate;
          apply CreateTestNamespace_inv in Hc;
          destruct Hc as (-> & Hcount & _)
    end.
    unfold bind at 1. cbn [env Namespace].
    match goal with
    | |- context [WaitForNamespaceCreated ?n ?s] =>
        destruct (WaitForNamespaceCreated n s) as [[u| |] ts2] eqn:Hw;
          try discriminate;
          apply WaitForNamespaceCreated_finished in Hw;
          destruct Hw as (Hcount2 & _)
    end.
    unfold ret. intros Hrun. inversion Hrun; subst.
    cbn [env kn createNamespaceOnSetup namespaceCreated].
    rewrite Hcount2, Hcount. cbn [counters].
    repeat split. discriminate.
  - unfold ret. intros Hrun. inversion Hrun; subst.
    cbn [env kn createNamespaceOnSetup namespaceCreated counters run].
    repeat split.
Qed.

(** Two tests that start from the same namespace name and are set up
    one after the other get different namespaces, as long as the counter
    does not pass the largest [int] in between. *)
Theorem Setup_namespaces_differ (test1 test2 test1' test2' : e2eTest)
  (ts ts1 ts2 : TestState) :
  Namespace (env test1) = Namespace (env test2) ->
  (minInt <= namespaceCount (counters ts) < maxInt)%Z ->
  Setup test1 ts = (Finished test1', ts1) ->
  Setup test2 ts1 = (Finished test2', ts2) ->
  Namespace (env test1') <> Namespace (env test2').
Proof.
  intros Hbase Hrange Hs1 Hs2.
  apply Setup_inv in Hs1. destruct Hs1 as (He1 & _ & _ & _ & Hc1 & _).
  apply Setup_inv in Hs2. destruct Hs2 as (He2 & _ & _ & _ & _ & _).
  rewrite He1, He2, Hc1, <- Hbase. cbn [Namespace namespaceCount].
  rewrite wrap_small by lia.
  intros Heq. apply append_cancel, Itoa_injective in Heq. lia.
Qed.

(** After a set-up that creates the namespace, the tear-down deletes
    that very namespace: the test is marked as having its namespace
    created, its namespace is the old name followed by the ordinal, and
    [Teardown] makes exactly one call, [kubectl delete namespace] of that
    name. *)
Theorem Setup_then_Teardown (test test' : e2eTest) (ts ts' : TestState) :
  createNamespaceOnSetup test = true ->
  Setup test ts = (Finished test', ts') ->
  namespaceCreated test' = true /\
  Namespace (env test')
  = Namespace (env test) ++ Itoa (namespaceCount (counters ts)) /\
  E2E.trace (run (snd (Teardown test' ts')))
  = (E2E.trace (run ts')
     ++ [E2E.EvKubectl ["delete"; "namespace"; Namespace (env test')]
                       E2E.noOpts])%list.
Proof.
  intros Hflag Hsetup. apply Setup_inv in Hsetup.
  destruct Hsetup as (He & _ & _ & Hc & _ & _).
  rewrite Hflag in Hc. simpl in Hc. rewrite He. cbn [Namespace].
  repeat split; [exact Hc|].
  unfold Teardown. rewrite Hc, He. cbn [Namespace].
  unfold DeleteTestNamespace, bind, lift, E2E.kubectl_RunWithOpts.
  cbn [run counters].
  destruct (E2E.kubectl _ _ _) as [[out [e|]]|msg]; simpl; try reflexivity.
  unfold matchRegexp.
  destruct (MatchString _ _) as [matched [e|]]; simpl; [reflexivity|].
  destruct matched; reflexivity.
Qed.

(** A test that opts out of creating its namespace never touches the
    cluster in [Setup] and [Teardown]: the set-up only takes an ordinal
    and renames the namespace, and the tear-down right after it does
    nothing. *)
Theorem Setup_without_namespace (test : e2eTest) (ts : TestState) :
  createNamespaceOnSetup test = false -> namespaceCreated test = false ->
  exists test' ts',
    Setup test ts = (Finished test', ts') /\
    run ts' = run ts /\
    Namespace (env test')
    = Namespace (env test) ++ Itoa (namespaceCount (counters ts)) /\
    Teardown test' ts' = (Finished test', ts').
Proof.
  intros Hflag Hcreated. unfold Setup, bind, getNamespaceCountAndIncrement.
  cbn [createNamespaceOnSetup]. rewrite Hflag, Hcreated.
  eexists. eexists. split; [reflexivity|]. repeat split.
Qed.

(** Tearing down twice deletes once: after a tear-down that returned,
    the namespace is no longer marked as created and a second tear-down
    does nothing. *)
Theorem Teardown_twice (test test' : e2eTest) (ts ts' : TestState) :
  Teardown test ts = (Finished test', ts') ->
  namespaceCreated test' = false /\
  Teardown test' ts' = (Finished test', ts').
Proof.
  unfold Teardown at 1. destruct (namespaceCreated test) eqn:Hflag.
  - unfold DeleteTestNamespace, bind, lift.
    destruct (E2E.kubectl_RunWithOpts _ _ _) as [[[out [e|]]|msg] st1];
      simpl; try discriminate.
    unfold matchRegexp.
    destruct (MatchString _ _) as [matched [e|]]; simpl; [discriminate|].
    destruct matched; simpl; [|discriminate].
    intros Hrun. inversion Hrun; subst. split; reflexivity.
  - unfold ret. intros Hrun. inversion Hrun; subst.
    split; [exact Hflag|]. unfold Teardown. now rewrite Hflag.
Qed.

End Tests.

(** *** The statements on the willing cluster *)

Import MoreFixtures.

Lemma namespace_ordinals_gapless_witness :
  exists rs ts',
    callAll [NextNamespace; NextServiceName "svc"; NextNamespace] freshTest
    = (Finished rs, ts') /\
    run ts' = run freshTest /\
    ordinals rs = countFrom 7 2 /\
    NoDup (ordinals rs).
Proof.
  apply (namespace_ordinals_gapless
           [NextNamespace; NextServiceName "svc"; NextNamespace] freshTest);
    unfold minInt, maxInt; simpl; lia.
Defined.

Lemma service_names_distinct_witness :
  exists rs ts',
    callAll [NextServiceName "svc"; NextNamespace; NextServiceName "svc"]
            freshTest
    = (Finished rs, ts') /\
    serviceNames rs = map (fun i => "svc" ++ Itoa i) (countFrom 0 2) /\
    NoDup (serviceNames rs).
Proof.
  apply (service_names_distinct "svc"
           [NextServiceName "svc"; NextNamespace; NextServiceName "svc"]
           freshTest).
  - repeat (apply Forall_cons;
            [first [left; reflexivity | right; reflexivity]|]).
    apply Forall_nil.
  - unfold minInt; simpl; lia.
  - unfold maxInt; simpl; lia.
Defined.

Lemma CreateTestNamespace_finished_witness :
  namespaceCreated
    (finished (fst (CreateTestNamespace (H := willing) (H0 := lastWord)
                      (knTest true) "kn-test-7" freshTest))
              (knTest true)) = true.
Proof.
  exact (proj1 (CreateTestNamespace_finished (H := willing) (H0 := lastWord)
                  (knTest true) _ "kn-test-7" freshTest _ eq_refl)).
Defined.

Lemma CreateTestNamespace_gives_up_witness :
  exists msg,
    fst (CreateTestNamespace (H := E2E.steady ("", Some E2E.refused))
           (H0 := lastWord) (knTest true) "kn-test-7" freshTest)
    = RunEnded msg /\
    Contains msg (Error E2E.refused) = true.
Proof.
  apply (CreateTestNamespace_gives_up
           (H := E2E.steady ("", Some E2E.refused)) (H0 := lastWord)
           (knTest true) "kn-test-7" freshTest
           (fun _ => "") (fun _ => E2E.refused)).
  intros i _. reflexivity.
Defined.

Lemma Setup_namespaces_differ_witness :
  let first := Setup (H := willing) (H0 := lastWord) (knTest false)
                     freshTest in
  let second := Setup (H := willing) (H0 := lastWord) (knTest false)
                      (snd first) in
  (Namespace (env (finished (fst first) (knTest false)))
   =? Namespace (env (finished (fst second) (knTest false)))) = false.
Proof.
  apply String.eqb_neq.
  apply (Setup_namespaces_differ (H := willing) (H0 := lastWord)
           (knTest false) (knTest false) _ _ freshTest
           (snd (Setup (H := willing) (H0 := lastWord) (knTest false)
                   freshTest))
           (snd (Setup (H := willing) (H0 := lastWord) (knTest false)
                   (snd (Setup (H := willing) (H0 := lastWord)
                           (knTest false) freshTest))))).
  - reflexivity.
  - unfold minInt, maxInt; simpl; lia.
  - reflexivity.
  - reflexivity.
Defined.

Lemma Setup_then_Teardown_witness :
  E2E.trace (run (snd tornDown))
  = (E2E.trace (run (snd setUp))
     ++ [E2E.EvKubectl ["delete"; "namespace"; "kn-test-7"] E2E.noOpts])%list.
Proof.
  exact (proj2 (proj2 (Setup_then_Teardown (H := willing) (H0 := lastWord)
                         (knTest true) (finished (fst setUp) (knTest true))
                         freshTest (snd setUp) eq_refl eq_refl))).
Defined.

Lemma Setup_without_namespace_witness :
  exists test' ts',
    Setup (H := willing) (H0 := lastWord) (knTest false) freshTest
    = (Finished test', ts') /\
    run ts' = run freshTest /\
    Namespace (env test') = "kn-test-" ++ Itoa 7 /\
    Teardown (H := willing) (H0 := lastWord) test' ts' = (Finished test', ts').
Proof.
  apply (Setup_without_namespace (H := willing) (H0 := lastWord)
           (knTest false) freshTest); reflexivity.
Defined.

Lemma Teardown_twice_witness :
  Teardown (H := willing) (H0 := lastWord)
    (finished (fst tornDown) (knTest true)) (snd tornDown)
  = (Finished (finished (fst tornDown) (knTest true)), snd tornDown).
Proof.
  exact (proj2 (Teardown_twice (H := willing) (H0 := lastWord)
                  (finished (fst setUp) (knTest true))
                  (finished (fst tornDown) (knTest true))
                  (snd setUp) (snd tornDown) eq_refl)).
Defined.

End LifecycleFacts.
